(** * lslib: typed node attributes, their textual form and their XML form

    A shallow embedding of [NodeAttribute.go].  Go values are modelled as
    follows.

    - [string] is a sequence of bytes: Rocq's [string], one [ascii] per byte.
    - [uint64], [int64] and [int] (64 bits wide, as on amd64) are [Z]; every
      place where the Go code can wrap around has the wrap written out.
    - [float32] and [float64] are IEEE 754 values, [spec_float].
    - [error] is an inductive type with one constructor per dynamic error
      type the package can return; [nil] is [None].
    - [interface{}] is the sum [GoValue] of the dynamic types that the
      package stores in [NodeAttribute.Value].
    - a method with a pointer receiver returns the updated receiver.

    The parts of Go's standard library that the package calls are modelled
    in modules named after their packages ([strconv], [strings], [base64],
    [xml]), following go1.22. *)

From Stdlib Require Import ZArith List Strings.String Strings.Ascii Strings.Byte.
From Stdlib Require Import Lia Bool DecimalString DecimalPos DecimalFacts.
From Stdlib Require Import Floats.SpecFloat.
Import ListNotations.

Local Open Scope string_scope.
Local Open Scope Z_scope.

(** ** Bytes and errors *)

(** The numeric value of a byte of a string. *)
Definition byteval (c : ascii) : Z := Z.of_N (N_of_ascii c).

(** [s[n:]] for [n <= len(s)]. *)
Fixpoint skip (n : nat) (s : string) : string :=
  match n, s with
  | O, _ => s
  | S n', String _ s' => skip n' s'
  | S _, EmptyString => EmptyString
  end.

(** [len(s)] as a Go [int]. *)
Definition len (s : string) : Z := Z.of_nat (String.length s).

(** The [Err] field of a [*strconv.NumError]. *)
Inductive numErr : Set :=
| ErrSyntax
| ErrRange
| ErrInvalid (msg : string).

(** The dynamic error values of the package. *)
Inductive error : Set :=
| NumError (Func Num : string) (Err : numErr)  (* *strconv.NumError *)
| errorString (msg : string)                   (* errors.New, fmt.Errorf *)
| CorruptInputError (offset : Z)               (* base64.CorruptInputError *)
| ErrVectorTooBig.                             (* the package's own value *)

(** ** Package strconv *)

Module strconv.

Definition IntSize : Z := 64.
Definition maxUint64 : Z := 2 ^ 64 - 1.

(** Conversions to [uint64] and [int64]: the low 64 bits. *)
Definition uint64 (z : Z) : Z := z mod 2 ^ 64.
Definition int64 (z : Z) : Z := (z + 2 ^ 63) mod 2 ^ 64 - 2 ^ 63.

(** [strconv.Itoa]: base-10 text, a leading [-] for negative numbers. *)
Definition Itoa (i : Z) : string := NilZero.string_of_int (Z.to_int i).

(** [lower(c)] is [c | ('x' - 'X')]. *)
Definition lower (c : Z) : Z := Z.lor c 32.

Definition syntaxError (fn str : string) : error := NumError fn str ErrSyntax.
Definition rangeError (fn str : string) : error := NumError fn str ErrRange.
Definition baseError (fn str : string) (base : Z) : error :=
  NumError fn str (ErrInvalid ("invalid base " ++ Itoa base)).
Definition bitSizeError (fn str : string) (bitSize : Z) : error :=
  NumError fn str (ErrInvalid ("invalid bit size " ++ Itoa bitSize)).

(** The loop of [underscoreOK]; [saw] is the last character class seen:
    [^] beginning, [0] digit or base prefix, [_] underscore, [!] other. *)
Fixpoint underscoreOK_loop (hex : bool) (s : string) (saw : ascii) : bool :=
  match s with
  | EmptyString => negb (Ascii.eqb saw "_")
  | String ch s' =>
      let c := byteval ch in
      if ((48 <=? c) && (c <=? 57))
         || (hex && (97 <=? lower c) && (lower c <=? 102))
      then underscoreOK_loop hex s' "0"
      else if c =? 95 then
        if negb (Ascii.eqb saw "0") then false
        else underscoreOK_loop hex s' "_"
      else if Ascii.eqb saw "_" then false
      else underscoreOK_loop hex s' "!"
  end.

(** [underscoreOK(s)]: underscores stand only between digits or between a
    base prefix and a digit. *)
Definition underscoreOK (s : string) : bool :=
  let s :=
    match s with
    | String ch s' =>
        if (byteval ch =? 45) || (byteval ch =? 43) then s' else s
    | EmptyString => s
    end in
  match s with
  | String c0 (String c1 s') =>
      let l := lower (byteval c1) in
      if (byteval c0 =? 48) && ((l =? 98) || (l =? 111) || (l =? 120))
      then underscoreOK_loop (l =? 120) s' "0"
      else underscoreOK_loop false s "^"
  | _ => underscoreOK_loop false s "^"
  end.

(** The digit loop of [ParseUint], with the check that follows it.  [s0] is
    the whole argument, [s] what is left to read, [n] the value so far. *)
Fixpoint ParseUint_loop (s0 : string) (base : Z) (base0 : bool)
    (cutoff maxVal : Z) (s : string) (underscores : bool) (n : Z)
    : Z * option error :=
  match s with
  | EmptyString =>
      if underscores && negb (underscoreOK s0)
      then (0, Some (syntaxError "ParseUint" s0))
      else (n, None)
  | String ch s' =>
      let c := byteval ch in
      if (c =? 95) && base0 then
        ParseUint_loop s0 base base0 cutoff maxVal s' true n
      else
        let digit :=
          if (48 <=? c) && (c <=? 57) then Some (c - 48)
          else if (97 <=? lower c) && (lower c <=? 122)
               then Some (lower c - 97 + 10)
               else None in
        match digit with
        | None => (0, Some (syntaxError "ParseUint" s0))
        | Some d =>
            if d >=? base then (0, Some (syntaxError "ParseUint" s0))
            else if n >=? cutoff then
              (maxVal, Some (rangeError "ParseUint" s0))
            else
              let n := uint64 (n * base) in
              let n1 := uint64 (n + d) in
              if (n1 <? n) || (n1 >? maxVal) then
                (maxVal, Some (rangeError "ParseUint" s0))
              else ParseUint_loop s0 base base0 cutoff maxVal s' underscores n1
        end
  end.

(** The base and the digits of [s] when [base] is 0: [0b], [0o], [0x], a
    leading [0] for octal, base 10 otherwise. *)
Definition basePrefix (s : string) : Z * string :=
  match s with
  | String c0 (String c1 _) =>
      if byteval c0 =? 48 then
        let l := lower (byteval c1) in
        if (len s >=? 3) && (l =? 98) then (2, skip 2 s)
        else if (len s >=? 3) && (l =? 111) then (8, skip 2 s)
        else if (len s >=? 3) && (l =? 120) then (16, skip 2 s)
        else (8, skip 1 s)
      else (10, s)
  | String c0 EmptyString =>
      if byteval c0 =? 48 then (8, skip 1 s) else (10, s)
  | EmptyString => (10, s)
  end.

(** [strconv.ParseUint(s, base, bitSize)]. *)
Definition ParseUint (s : string) (base bitSize : Z) : Z * option error :=
  if String.eqb s "" then (0, Some (syntaxError "ParseUint" s))
  else
    let base0 := base =? 0 in
    let s0 := s in
    let chosen :=
      if (2 <=? base) && (base <=? 36) then Some (base, s)
      else if base =? 0 then Some (basePrefix s)
      else None in
    match chosen with
    | None => (0, Some (baseError "ParseUint" s0 base))
    | Some (base, s) =>
        let bitSize := if bitSize =? 0 then IntSize else bitSize in
        if (bitSize <? 0) || (bitSize >? 64) then
          (0, Some (bitSizeError "ParseUint" s0 bitSize))
        else
          let cutoff := maxUint64 / base + 1 in
          let maxVal := uint64 (uint64 (Z.shiftl 1 bitSize) - 1) in
          ParseUint_loop s0 base base0 cutoff maxVal s false 0
    end.

(** [strconv.ParseInt(s, base, bitSize)]: the digits are read by
    [ParseUint] at the same [bitSize], so that a range error of the width
    comes before a syntax error further on in the text. *)
Definition ParseInt (s : string) (base bitSize : Z) : Z * option error :=
  if String.eqb s "" then (0, Some (syntaxError "ParseInt" s))
  else
    let s0 := s in
    let '(neg, s) :=
      match s with
      | String ch s' =>
          if byteval ch =? 43 then (false, s')
          else if byteval ch =? 45 then (true, s')
          else (false, s)
      | EmptyString => (false, s)
      end in
    let '(un, err) := ParseUint s base bitSize in
    let fatal :=
      match err with
      | Some (NumError _ _ ErrRange) => None
      | Some (NumError _ _ e) => Some (NumError "ParseInt" s0 e)
      | Some e => Some e
      | None => None
      end in
    match fatal with
    | Some e => (0, Some e)
    | None =>
        let bitSize := if bitSize =? 0 then IntSize else bitSize in
        let cutoff := uint64 (Z.shiftl 1 (bitSize - 1)) in
        if negb neg && (un >=? cutoff) then
          (int64 (cutoff - 1), Some (rangeError "ParseInt" s0))
        else if neg && (un >? cutoff) then
          (int64 (- int64 cutoff), Some (rangeError "ParseInt" s0))
        else
          let n := int64 un in
          let n := if neg then int64 (- n) else n in
          (n, None)
    end.

(** [strconv.ParseBool(str)]. *)
Definition ParseBool (str : string) : bool * option error :=
  if existsb (String.eqb str) ["1"; "t"; "T"; "true"; "TRUE"; "True"]
  then (true, None)
  else if existsb (String.eqb str) ["0"; "f"; "F"; "false"; "FALSE"; "False"]
  then (false, None)
  else (false, Some (syntaxError "ParseBool" str)).

End strconv.

(** ** Package strings *)

Module strings.

(** [strings.Split(s, sep)] for a separator [sep] of one byte: the
    substrings between the separators, [[""]] for the empty string. *)
Fixpoint Split (s : string) (sep : ascii) : list string :=
  match s with
  | EmptyString => [""]
  | String c s' =>
      if Ascii.eqb c sep then "" :: Split s' sep
      else
        match Split s' sep with
        | h :: t => String c h :: t
        | [] => [String c ""]
        end
  end.

End strings.

(** ** Package encoding/base64, [StdEncoding] *)

Module base64.

(** The alphabet of [StdEncoding]; its padding character is [=]. *)
Definition encodeStd : string :=
  "ABCDEFGHIJKLMNOPQRSTUVWXYZabcdefghijklmnopqrstuvwxyz0123456789+/".

(** A Go [byte] from the low 8 bits of an integer, and back. *)
Definition byte_of_Z (z : Z) : byte :=
  match Byte.of_N (Z.to_N (z mod 256)) with
  | Some b => b
  | None => x00
  end.
Definition Z_of_byte (b : byte) : Z := Z.of_N (Byte.to_N b).

(** [enc.encode[i]] for [0 <= i < 64]. *)
Definition encode (i : Z) : ascii :=
  match String.get (Z.to_nat i) encodeStd with
  | Some c => c
  | None => zero
  end.

(** The position of [c] in [s], counted from [i]. *)
Fixpoint indexFrom (c : ascii) (s : string) (i : Z) : option Z :=
  match s with
  | EmptyString => None
  | String c' s' => if Ascii.eqb c c' then Some i else indexFrom c s' (i + 1)
  end.

(** [enc.decodeMap[c]]: the position of [c] in the alphabet, [0xff] for a
    byte outside of it. *)
Definition decodeMap (c : ascii) : Z :=
  match indexFrom c encodeStd 0 with
  | Some i => i
  | None => 255
  end.

(** [Encode]: three bytes make four characters; a last block of one or two
    bytes is padded with [=]. *)
Fixpoint Encode (src : list byte) : string :=
  match src with
  | [] => ""
  | s0 :: s1 :: s2 :: rest =>
      let val := Z.lor (Z.lor (Z.shiftl (Z_of_byte s0) 16)
                              (Z.shiftl (Z_of_byte s1) 8)) (Z_of_byte s2) in
      String (encode (Z.land (Z.shiftr val 18) 63))
     (String (encode (Z.land (Z.shiftr val 12) 63))
     (String (encode (Z.land (Z.shiftr val 6) 63))
     (String (encode (Z.land val 63)) (Encode rest))))
  | [s0; s1] =>
      let val := Z.lor (Z.shiftl (Z_of_byte s0) 16)
                       (Z.shiftl (Z_of_byte s1) 8) in
      String (encode (Z.land (Z.shiftr val 18) 63))
     (String (encode (Z.land (Z.shiftr val 12) 63))
     (String (encode (Z.land (Z.shiftr val 6) 63)) "="))
  | [s0] =>
      let val := Z.shiftl (Z_of_byte s0) 16 in
      String (encode (Z.land (Z.shiftr val 18) 63))
     (String (encode (Z.land (Z.shiftr val 12) 63)) "==")
  end.

(** [EncodeToString(src)]. *)
Definition EncodeToString (src : list byte) : string := Encode src.

(** What a call of [decodeQuantum] returns: the input left to read, the
    index [nsi] reached, the bytes written and the error. *)
Record quantum : Set :=
  { q_rest : string; q_nsi : Z; q_out : list byte; q_err : option error }.

Definition isNewline (c : ascii) : bool :=
  (byteval c =? 10) || (byteval c =? 13).

(** [for si < len(src) && (src[si] == '\n' || src[si] == '\r') { si++ }]. *)
Fixpoint skipNewlines (src : string) (si : Z) : string * Z :=
  match src with
  | String c src' =>
      if isNewline c then skipNewlines src' (si + 1) else (src, si)
  | EmptyString => (src, si)
  end.

(** [dbuf[j] = out]. *)
Fixpoint setAt (j : nat) (out : Z) (dbuf : list Z) : list Z :=
  match j, dbuf with
  | O, _ :: t => out :: t
  | S j', h :: t => h :: setAt j' out t
  | _, [] => []
  end.

(** The end of [decodeQuantum]: four 6-bit values become three bytes, of
    which the first [dlen - 1] are written. *)
Definition convert (dbuf : list Z) (dlen : Z) : list byte :=
  let val := Z.lor (Z.lor (Z.lor (Z.shiftl (nth 0 dbuf 0) 18)
                                 (Z.shiftl (nth 1 dbuf 0) 12))
                          (Z.shiftl (nth 2 dbuf 0) 6)) (nth 3 dbuf 0) in
  let b2 := byte_of_Z (Z.shiftr val 0) in
  let b1 := byte_of_Z (Z.shiftr val 8) in
  let b0 := byte_of_Z (Z.shiftr val 16) in
  firstn (Z.to_nat (dlen - 1)) [b0; b1; b2].

(** The loop of [decodeQuantum] over [j]; [src] is the input from index
    [si] on, [srclen] is [len(src)].  A newline leaves [j] as it is. *)
Fixpoint decodeQuantum_loop (srclen : Z) (src : string) (si : Z) (j : nat)
    (dbuf : list Z) : quantum :=
  if (4 <=? j)%nat then
    {| q_rest := src; q_nsi := si; q_out := convert dbuf 4; q_err := None |}
  else
    match src with
    | EmptyString =>
        if (j =? 0)%nat then
          {| q_rest := src; q_nsi := si; q_out := []; q_err := None |}
        else
          {| q_rest := src; q_nsi := si; q_out := [];
             q_err := Some (CorruptInputError (si - Z.of_nat j)) |}
    | String c src' =>
        let si := si + 1 in
        let out := decodeMap c in
        if negb (out =? 255) then
          decodeQuantum_loop srclen src' si (S j) (setAt j out dbuf)
        else if isNewline c then
          decodeQuantum_loop srclen src' si j dbuf
        else if negb (byteval c =? 61) then
          {| q_rest := src'; q_nsi := si; q_out := [];
             q_err := Some (CorruptInputError (si - 1)) |}
        else
          let fail off :=
            {| q_rest := src'; q_nsi := si; q_out := [];
               q_err := Some (CorruptInputError off) |} in
          let finish src1 si1 :=
            let '(src2, si2) := skipNewlines src1 si1 in
            {| q_rest := src2; q_nsi := si2;
               q_out := convert dbuf (Z.of_nat j);
               q_err := if si2 <? srclen
                        then Some (CorruptInputError si2) else None |} in
          match j with
          | 0%nat | 1%nat => fail (si - 1)
          | 2%nat =>
              let '(src1, si1) := skipNewlines src' si in
              match src1 with
              | EmptyString =>
                  {| q_rest := src1; q_nsi := si1; q_out := [];
                     q_err := Some (CorruptInputError srclen) |}
              | String c1 src1' =>
                  if negb (byteval c1 =? 61) then
                    {| q_rest := src1; q_nsi := si1; q_out := [];
                       q_err := Some (CorruptInputError (si1 - 1)) |}
                  else finish src1' (si1 + 1)
              end
          | _ => finish src' si
          end
    end.

(** [decodeQuantum(dst, src, si)]. *)
Definition decodeQuantum (srclen : Z) (src : string) (si : Z) : quantum :=
  decodeQuantum_loop srclen src si 0 [0; 0; 0; 0].

(** [Decode]: one quantum after the other until the input is read or a
    quantum fails.  Go's loops that take 8 or 4 characters at a time decode
    what [decodeQuantum] decodes and are not modelled apart.  Every quantum
    reads at least one character, so [fuel] above [len(src)] is enough. *)
Fixpoint Decode_loop (fuel : nat) (srclen : Z) (src : string) (si : Z)
    (dst : list byte) : list byte * option error :=
  match fuel with
  | O => (dst, None)
  | S fuel' =>
      match src with
      | EmptyString => (dst, None)
      | _ =>
          let q := decodeQuantum srclen src si in
          let dst := (dst ++ q_out q)%list in
          match q_err q with
          | Some e => (dst, Some e)
          | None => Decode_loop fuel' srclen (q_rest q) (q_nsi q) dst
          end
      end
  end.

(** [DecodeString(s)]: the bytes decoded, up to the error if there is one. *)
Definition DecodeString (s : string) : list byte * option error :=
  Decode_loop (S (String.length s)) (len s) s 0 [].

(** For the statements below: the 24-bit value of three bytes, and its
    6-bit digit at bit [k]. *)
Definition val3 (a b c : Z) : Z :=
  Z.lor (Z.lor (Z.shiftl a 16) (Z.shiftl b 8)) c.
Definition sextet (val k : Z) : Z := Z.land (Z.shiftr val k) 63.

End base64.

(** ** The data model of [NodeAttribute.go] *)

Definition float32 : Set := spec_float.
Definition float64 : Set := spec_float.

Record TranslatedString : Set :=
  { Version : Z; TextValue : string; Handle : string }.

Inductive TranslatedFSString : Set :=
| mkTranslatedFSString (ts : TranslatedString)
    (Arguments : list TranslatedFSStringArgument)
with TranslatedFSStringArgument : Set :=
| mkTranslatedFSStringArgument (String_ : TranslatedFSString)
    (Key ArgValue : string).

(** [mat.Dense]: its rows ([RawRowView]) and the number of columns. *)
Record Dense : Set := { RawRows : list (list float64); Cols : Z }.

(** [type DataType int], with the constants of the [iota] block. *)
Definition DataType : Set := Z.

Abbreviation DT_None := 0 (only parsing).
Abbreviation DT_Byte := 1 (only parsing).
Abbreviation DT_Short := 2 (only parsing).
Abbreviation DT_UShort := 3 (only parsing).
Abbreviation DT_Int := 4 (only parsing).
Abbreviation DT_UInt := 5 (only parsing).
Abbreviation DT_Float := 6 (only parsing).
Abbreviation DT_Double := 7 (only parsing).
Abbreviation DT_IVec2 := 8 (only parsing).
Abbreviation DT_IVec3 := 9 (only parsing).
Abbreviation DT_IVec4 := 10 (only parsing).
Abbreviation DT_Vec2 := 11 (only parsing).
Abbreviation DT_Vec3 := 12 (only parsing).
Abbreviation DT_Vec4 := 13 (only parsing).
Abbreviation DT_Mat2 := 14 (only parsing).
Abbreviation DT_Mat3 := 15 (only parsing).
Abbreviation DT_Mat3x4 := 16 (only parsing).
Abbreviation DT_Mat4x3 := 17 (only parsing).
Abbreviation DT_Mat4 := 18 (only parsing).
Abbreviation DT_Bool := 19 (only parsing).
Abbreviation DT_String := 20 (only parsing).
Abbreviation DT_Path := 21 (only parsing).
Abbreviation DT_FixedString := 22 (only parsing).
Abbreviation DT_LSString := 23 (only parsing).
Abbreviation DT_ULongLong := 24 (only parsing).
Abbreviation DT_ScratchBuffer := 25 (only parsing).
Abbreviation DT_Long := 26 (only parsing).
Abbreviation DT_Int8 := 27 (only parsing).
Abbreviation DT_TranslatedString := 28 (only parsing).
Abbreviation DT_WString := 29 (only parsing).
Abbreviation DT_LSWString := 30 (only parsing).
Abbreviation DT_UUID := 31 (only parsing).
Abbreviation DT_Int64 := 32 (only parsing).
Abbreviation DT_TranslatedFSString := 33 (only parsing).
Abbreviation DT_Max := 33 (only parsing).

(** The dynamic values of [NodeAttribute.Value], an [interface{}]: one
    constructor per dynamic type. *)
Inductive GoValue : Set :=
| VNil                                   (* nil *)
| VInt (n : Z)                           (* int *)
| VInt64 (n : Z)                         (* int64 *)
| VUint64 (n : Z)                        (* uint64 *)
| VFloat32 (f : float32)                 (* float32 *)
| VFloat64 (f : float64)                 (* float64 *)
| VBool (b : bool)                       (* bool *)
| VString (s : string)                   (* string *)
| VBytes (b : list byte)                 (* []byte *)
| VInts (v : list Z)                     (* []int *)
| VIvec (v : list Z)                     (* Ivec *)
| VFloats (v : list float64)             (* []float64 *)
| VVec (v : list float64)                (* Vec *)
| VMat (m : Dense)                       (* Mat *)
| VUUID (u : list byte)                  (* uuid.UUID *)
| VTranslatedString (ts : TranslatedString)
| VTranslatedFSString (tfs : TranslatedFSString).

Record NodeAttribute : Set :=
  { Name : string; Type_ : DataType; Value : GoValue }.

(** [na.Value = v]. *)
Definition setValue (na : NodeAttribute) (v : GoValue) : NodeAttribute :=
  {| Name := Name na; Type_ := Type_ na; Value := v |}.

(** [DataType.String]. *)
Definition DataType_String (dt : DataType) : string :=
  match dt with
  | DT_None => "None"
  | DT_Byte => "uint8"
  | DT_Short => "int16"
  | DT_UShort => "uint16"
  | DT_Int => "int32"
  | DT_UInt => "uint32"
  | DT_Float => "float"
  | DT_Double => "double"
  | DT_IVec2 => "ivec2"
  | DT_IVec3 => "ivec3"
  | DT_IVec4 => "ivec4"
  | DT_Vec2 => "fvec2"
  | DT_Vec3 => "fvec3"
  | DT_Vec4 => "fvec4"
  | DT_Mat2 => "mat2x2"
  | DT_Mat3 => "mat3x3"
  | DT_Mat3x4 => "mat3x4"
  | DT_Mat4x3 => "mat4x3"
  | DT_Mat4 => "mat4x4"
  | DT_Bool => "bool"
  | DT_String => "string"
  | DT_Path => "path"
  | DT_FixedString => "FixedString"
  | DT_LSString => "LSString"
  | DT_ULongLong => "uint64"
  | DT_ScratchBuffer => "ScratchBuffer"
  | DT_Long => "old_int64"
  | DT_Int8 => "int8"
  | DT_TranslatedString => "TranslatedString"
  | DT_WString => "WString"
  | DT_LSWString => "LSWString"
  | DT_UUID => "guid"
  | DT_Int64 => "int64"
  | DT_TranslatedFSString => "TranslatedFSString"
  | _ => ""
  end.

(** [DataType.GetRows]. *)
Definition DataType_GetRows (dt : DataType) : Z * option error :=
  match dt with
  | DT_IVec2 | DT_IVec3 | DT_IVec4 | DT_Vec2 | DT_Vec3 | DT_Vec4 => (1, None)
  | DT_Mat2 => (2, None)
  | DT_Mat3 | DT_Mat3x4 => (3, None)
  | DT_Mat4x3 | DT_Mat4 => (4, None)
  | _ => (0, Some (errorString "Data type does not have rows"))
  end.

(** [DataType.GetColumns]. *)
Definition DataType_GetColumns (dt : DataType) : Z * option error :=
  match dt with
  | DT_IVec2 | DT_Vec2 | DT_Mat2 => (2, None)
  | DT_IVec3 | DT_Vec3 | DT_Mat3 | DT_Mat4x3 => (3, None)
  | DT_IVec4 | DT_Vec4 | DT_Mat3x4 | DT_Mat4 => (4, None)
  | _ => (0, Some (errorString "Data type does not have columns"))
  end.


Definition GetColumns (na : NodeAttribute) : Z * option error :=
  DataType_GetColumns (Type_ na).

(** [NodeAttribute.IsNumeric]. *)
Definition IsNumeric (na : NodeAttribute) : bool :=
  match Type_ na with
  | DT_Byte | DT_Short | DT_Int | DT_UInt | DT_Float | DT_Double
  | DT_ULongLong | DT_Long | DT_Int8 => true
  | _ => false
  end.

(** [vec[i] = x] for [i < len(vec)]. *)
Fixpoint setIndex {A : Type} (i : nat) (x : A) (vec : list A) : list A :=
  match i, vec with
  | O, _ :: t => x :: t
  | S i', h :: t => h :: setIndex i' x t
  | _, [] => []
  end.

(** [fmt.Errorf("A vector of length %d was expected, got %d", length, n)]. *)
Definition vectorLengthError (length n : Z) : error :=
  errorString ("A vector of length " ++ strconv.Itoa length
               ++ " was expected, got " ++ strconv.Itoa n).

(** [int(n)] for an [int64]: [int] is 64 bits wide. *)
Definition int (n : Z) : Z := strconv.int64 n.

(** The loop over [nums] of the integer vector kinds: every element is
    written to [vec] before its error is looked at. *)
Fixpoint parseIvec (nums : list string) (i : nat) (vec : list Z)
    : error + list Z :=
  match nums with
  | [] => inr vec
  | v :: nums' =>
      let '(n, err) := strconv.ParseInt v 0 64 in
      let vec := setIndex i (int n) vec in
      match err with
      | Some e => inl e
      | None => parseIvec nums' (S i) vec
      end
  end.

Section FromString.

(** [strconv.ParseFloat(s, bitSize)] and [uuid.Parse(s)] are taken as
    they are: any function of these types. *)
Variable ParseFloat : string -> Z -> float64 * option error.
Variable uuid_Parse : string -> list byte * option error.

(** The loop over [nums] of the float vector kinds. *)
Fixpoint parseVec (nums : list string) (i : nat) (vec : list float64)
    : error + list float64 :=
  match nums with
  | [] => inr vec
  | v :: nums' =>
      let '(x, err) := ParseFloat v 64 in
      let vec := setIndex i x vec in
      match err with
      | Some e => inl e
      | None => parseVec nums' (S i) vec
      end
  end.

(** [if err != nil { return err }], then the [return nil] that ends the
    function. *)
Definition returnErr (na : NodeAttribute) (err : option error)
    : NodeAttribute * option error :=
  match err with
  | Some e => (na, Some e)
  | None => (na, None)
  end.

(** [NodeAttribute.FromString]: the attribute after the call and the
    error returned. *)
Definition FromString (na : NodeAttribute) (str : string)
    : NodeAttribute * option error :=
  let str :=
    if IsNumeric na then (if String.eqb str "" then "0" else str) else str in
  match Type_ na with
  | DT_None => (na, None)
  | DT_Byte => (setValue na (VBytes (list_byte_of_string str)), None)
  | DT_Short =>
      let '(v, err) := strconv.ParseInt str 0 16 in
      returnErr (setValue na (VInt64 v)) err
  | DT_UShort =>
      let '(v, err) := strconv.ParseUint str 0 16 in
      returnErr (setValue na (VUint64 v)) err
  | DT_Int =>
      let '(v, err) := strconv.ParseInt str 0 32 in
      returnErr (setValue na (VInt64 v)) err
  | DT_UInt =>
      let '(v, err) := strconv.ParseUint str 0 16 in
      returnErr (setValue na (VUint64 v)) err
  | DT_Float =>
      let '(v, err) := ParseFloat str 32 in
      returnErr (setValue na (VFloat64 v)) err
  | DT_Double =>
      let '(v, err) := ParseFloat str 64 in
      returnErr (setValue na (VFloat64 v)) err
  | DT_IVec2 | DT_IVec3 | DT_IVec4 =>
      let nums := strings.Split str "." in
      let '(length, err) := GetColumns na in
      match err with
      | Some e => (na, Some e)
      | None =>
          if negb (length =? Z.of_nat (List.length nums)) then
            (na, Some (vectorLengthError length (Z.of_nat (List.length nums))))
          else
            match parseIvec nums 0 (repeat 0 (Z.to_nat length)) with
            | inl e => (na, Some e)
            | inr vec => (setValue na (VInts vec), None)
            end
      end
  | DT_Vec2 | DT_Vec3 | DT_Vec4 =>
      let nums := strings.Split str "." in
      let '(length, err) := GetColumns na in
      match err with
      | Some e => (na, Some e)
      | None =>
          if negb (length =? Z.of_nat (List.length nums)) then
            (na, Some (vectorLengthError length (Z.of_nat (List.length nums))))
          else
            match parseVec nums 0 (repeat (S754_zero false) (Z.to_nat length)) with
            | inl e => (na, Some e)
            | inr vec => (setValue na (VFloats vec), None)
            end
      end
  | DT_Mat2 | DT_Mat3 | DT_Mat3x4 | DT_Mat4x3 | DT_Mat4 =>
      (na, Some (errorString "not implemented"))
  | DT_Bool =>
      let '(v, err) := strconv.ParseBool str in
      returnErr (setValue na (VBool v)) err
  | DT_String | DT_Path | DT_FixedString | DT_LSString | DT_WString
  | DT_LSWString =>
      (setValue na (VString str), None)
  | DT_TranslatedString => (na, None)
  | DT_TranslatedFSString => (na, None)
  | DT_ULongLong =>
      let '(v, err) := strconv.ParseUint str 10 64 in
      (setValue na (VUint64 v), None)
  | DT_ScratchBuffer =>
      let '(v, err) := base64.DecodeString str in
      returnErr (setValue na (VBytes v)) err
  | DT_Long | DT_Int64 =>
      let '(v, err) := strconv.ParseInt str 10 64 in
      returnErr (setValue na (VInt64 v)) err
  | DT_Int8 =>
      let '(v, err) := strconv.ParseInt str 10 8 in
      returnErr (setValue na (VInt64 v)) err
  | DT_UUID =>
      let '(v, err) := uuid_Parse str in
      returnErr (setValue na (VUUID v)) err
  | _ =>
      (na, Some (errorString ("FromString() not implemented for type "
                              ++ DataType_String (Type_ na))))
  end.

End FromString.

(** ** Package encoding/xml: tokens and the encoder *)

Module xml.

(** [xml.Name] is its [Local] part: the package never sets a name space. *)
Record Attr : Set := { AttrName : string; AttrValue : string }.
Record StartElement : Set := { ElemName : string; ElemAttr : list Attr }.

Inductive Token : Set :=
| Start (start : StartElement)
| End_ (name : string).

(** The encoder: the tokens written so far and the stack of open tags,
    the innermost first.  An empty name on the stack is the mark that
    [marshalInterface] pushes. *)
Record Encoder : Set := { written : list Token; tags : list string }.

(** [EncodeToken] of a start element or of an end element. *)
Definition EncodeToken (e : Encoder) (t : Token) : Encoder * option error :=
  match t with
  | Start start =>
      if String.eqb (ElemName start) "" then
        (e, Some (errorString "xml: start tag with no name"))
      else
        ({| written := (written e ++ [t])%list;
            tags := ElemName start :: tags e |}, None)
  | End_ name =>
      if String.eqb name "" then
        (e, Some (errorString "xml: end tag with no name"))
      else
        match tags e with
        | [] =>
            (e, Some (errorString ("xml: end tag </" ++ name
                                   ++ "> without start tag")))
        | top :: below =>
            if String.eqb top "" then
              (e, Some (errorString ("xml: end tag </" ++ name
                                     ++ "> without start tag")))
            else if negb (String.eqb top name) then
              (e, Some (errorString ("xml: end tag </" ++ name
                                     ++ "> does not match start tag <"
                                     ++ top ++ ">")))
            else
              ({| written := (written e ++ [t])%list; tags := below |}, None)
        end
  end.

(** [marshalInterface(val, start)], where [marshal] is [val.MarshalXML]:
    the call stands between a mark on the stack and the check that it
    closed the tags it opened.  [p.tags[:n-1]] keeps the [n-1] outermost
    tags, the last ones of the list. *)
Definition marshalInterface (receiver : string)
    (marshal : Encoder -> StartElement -> Encoder * option error)
    (e : Encoder) (start : StartElement) : Encoder * option error :=
  let e := {| written := written e; tags := "" :: tags e |} in
  let n := List.length (tags e) in
  let '(e, err) := marshal e start in
  match err with
  | Some err => (e, Some err)
  | None =>
      if (n <? List.length (tags e))%nat then
        (e, Some (errorString ("xml: " ++ receiver
                               ++ ".MarshalXML wrote invalid XML: <"
                               ++ hd "" (tags e) ++ "> not closed")))
      else
        ({| written := written e;
            tags := skipn (List.length (tags e) - (n - 1)) (tags e) |}, None)
  end.

End xml.

(** ** Canonical text and XML of an attribute *)

(** [Ivec.String]: the elements in base 10, each after a blank, without
    the first byte.  [None] is the panic of [b.String()[1:]] on the empty
    vector. *)
Definition Ivec_String (i : list Z) : option string :=
  match String.concat "" (map (fun v => " " ++ strconv.Itoa v) i) with
  | String _ s => Some s
  | EmptyString => None
  end.

(** [na.Value == 0]: an interface value equals the constant [0], an [int],
    when its dynamic type is [int] and its value is 0. *)
Definition equalsIntZero (v : GoValue) : bool :=
  match v with
  | VInt n => n =? 0
  | _ => false
  end.

(** The value of type [XMLMarshaler] or [xml.Marshaler] that a type
    assertion on [na.Value] finds. *)
Definition asXMLMarshaler (v : GoValue) : option TranslatedString :=
  match v with
  | VTranslatedString ts => Some ts
  | VTranslatedFSString (mkTranslatedFSString ts _) => Some ts
  | _ => None
  end.

Inductive Marshaler : Set :=
| MarshalerVec (v : list float64)
| MarshalerMat (m : Dense).

Definition asMarshaler (v : GoValue) : option Marshaler :=
  match v with
  | VVec v => Some (MarshalerVec v)
  | VMat m => Some (MarshalerMat m)
  | _ => None
  end.

(** [TranslatedString.MarshalXML]: [start], a pointer, gets two more
    attributes. *)
Definition TranslatedString_MarshalXML (ts : TranslatedString)
    (start : xml.StartElement) : xml.StartElement * option error :=
  ({| xml.ElemName := xml.ElemName start;
      xml.ElemAttr :=
        (xml.ElemAttr start
         ++ [ {| xml.AttrName := "handle"; xml.AttrValue := Handle ts |};
              {| xml.AttrName := "version";
                 xml.AttrValue := strconv.Itoa (Version ts) |} ])%list |},
   None).

Section Format.

(** The digits of [strconv]'s shortest decimal that reads back as the
    float [m * 2^e] of [bitSize] bits, and the place [dp] of the decimal
    point in them ([ryuFtoaShortest]); and [fmt.Sprint] on the values whose
    text needs these digits or the fields of a struct.  Both are taken as
    they are. *)
Variable ryuFtoaShortest : positive -> Z -> Z -> string * Z.
Variable Sprint_other : GoValue -> string.

(** [float32(val)]: rounding to 24 bits of precision. *)
Definition to_float32 (val : float64) : float32 :=
  match val with
  | S754_finite s m e => binary_normalize 24 128 (cond_Zopp s (Zpos m)) e s
  | _ => val
  end.

(** [fmtF(dst, neg, d, prec)]: [%f] from the digits [d] with the decimal
    point at [dp]. *)
Definition fmtF (neg : bool) (d : string) (dp : Z) (prec : Z) : string :=
  let nd := len d in
  let sign := if neg then "-" else "" in
  let integer :=
    if dp >? 0 then
      let m := Z.min nd dp in
      String.substring 0 (Z.to_nat m) d
      ++ String.concat "" (repeat "0" (Z.to_nat (dp - m)))
    else "0" in
  let fraction :=
    if prec >? 0 then
      "." ++ String.concat ""
               (map (fun i =>
                       let j := dp + Z.of_nat i in
                       if (0 <=? j) && (j <? nd)
                       then String.substring (Z.to_nat j) 1 d else "0")
                    (seq 0 (Z.to_nat prec)))
    else "" in
  sign ++ integer ++ fraction.

(** [strconv.FormatFloat(val, 'f', -1, bitSize)] for [bitSize] 32 or 64. *)
Definition FormatFloat (val : float64) (bitSize : Z) : string :=
  let val := if bitSize =? 32 then to_float32 val else val in
  match val with
  | S754_nan => "NaN"
  | S754_infinity neg => if neg then "-Inf" else "+Inf"
  | S754_zero neg => fmtF neg "" 0 (Z.max (0 - 0) 0)
  | S754_finite neg m e =>
      let '(d, dp) := ryuFtoaShortest m e bitSize in
      fmtF neg d dp (Z.max (len d - dp) 0)
  end.

(** [fmt.Sprint(v)]. *)
Definition Sprint (v : GoValue) : string :=
  match v with
  | VNil => "<nil>"
  | VInt n | VInt64 n | VUint64 n => strconv.Itoa n
  | VBool b => if b then "true" else "false"
  | VString s => s
  | VBytes b =>
      "[" ++ String.concat " " (map (fun x => strconv.Itoa (base64.Z_of_byte x)) b)
      ++ "]"
  | VInts v => "[" ++ String.concat " " (map strconv.Itoa v) ++ "]"
  | VIvec i =>
      match Ivec_String i with
      | Some s => s
      | None => Sprint_other v
      end
  | _ => Sprint_other v
  end.

(** [NodeAttribute.String]; [None] is the panic of a type assertion.  The
    receiver is a copy, so the assignment to [na.Value] is not seen by the
    caller. *)
Definition NodeAttribute_String (na : NodeAttribute) : option string :=
  match Type_ na with
  | DT_ScratchBuffer =>
      match Value na with
      | VBytes value => Some (base64.EncodeToString value)
      | _ => Some (Sprint (Value na))
      end
  | DT_Double =>
      match Value na with
      | VFloat64 v =>
          let na := if equalsIntZero (Value na)
                    then setValue na (VInt 0) else na in
          Some (FormatFloat v 64)
      | _ => None
      end
  | DT_Float =>
      match Value na with
      | VFloat32 v =>
          let na := if equalsIntZero (Value na)
                    then setValue na (VInt 0) else na in
          Some (FormatFloat v 32)
      | _ => None
      end
  | _ => Some (Sprint (Value na))
  end.

(** The loop of [Vec.MarshalXML]: one attribute per component, named
    after its axis. *)
Fixpoint Vec_attributes (v : list float64) (i : Z) (start : xml.StartElement)
    : xml.StartElement * option error :=
  match v with
  | [] => (start, None)
  | x :: v' =>
      let axis :=
        match i with
        | 0 => Some ("x", xml.ElemName start)
        | 1 => Some ("y", "float2")
        | 2 => Some ("z", "float3")
        | 3 => Some ("w", "float4")
        | _ => None
        end in
      match axis with
      | None => (start, Some ErrVectorTooBig)
      | Some (name, tag) =>
          Vec_attributes v' (i + 1)
            {| xml.ElemName := tag;
               xml.ElemAttr :=
                 (xml.ElemAttr start
                  ++ [ {| xml.AttrName := name;
                          xml.AttrValue := FormatFloat x 32 |} ])%list |}
      end
  end.

(** [Vec.MarshalXML]. *)
Definition Vec_MarshalXML (v : list float64) (e : xml.Encoder)
    (start : xml.StartElement) : xml.Encoder * option error :=
  let '(start, err) := Vec_attributes v 0 start in
  match err with
  | Some err => (e, Some err)
  | None =>
      let '(e, _) := xml.EncodeToken e (xml.Start start) in
      let '(e, _) := xml.EncodeToken e (xml.End_ (xml.ElemName start)) in
      (e, None)
  end.

(** The loop over the rows of [Mat.MarshalXML]: [e.Encode(n)] of a row
    [n], a [Vec], is [marshalInterface] with the name of its type. *)
Fixpoint Mat_rows (rows : list (list float64)) (e : xml.Encoder)
    : xml.Encoder :=
  match rows with
  | [] => e
  | v :: rows' =>
      let '(e, _) :=
        xml.marshalInterface "lslib.Vec" (Vec_MarshalXML v) e
          {| xml.ElemName := "Vec"; xml.ElemAttr := [] |} in
      Mat_rows rows' e
  end.

(** [Mat.MarshalXML]. *)
Definition Mat_MarshalXML (m : Dense) (e : xml.Encoder)
    (start : xml.StartElement) : xml.Encoder * option error :=
  let rows := Z.of_nat (List.length (RawRows m)) in
  let cols := Cols m in
  let name :=
    if rows =? cols then "mat" ++ strconv.Itoa rows
    else "mat" ++ strconv.Itoa rows ++ "x" ++ strconv.Itoa cols in
  let start := {| xml.ElemName := name; xml.ElemAttr := xml.ElemAttr start |} in
  let '(e, _) := xml.EncodeToken e (xml.Start start) in
  let e := Mat_rows (RawRows m) e in
  let '(e, _) := xml.EncodeToken e (xml.End_ (xml.ElemName start)) in
  (e, None).

(** [e.EncodeElement(v, start)] for a value [v] that is a [Marshaler]. *)
Definition EncodeElement (e : xml.Encoder) (v : Marshaler)
    (start : xml.StartElement) : xml.Encoder * option error :=
  if String.eqb (xml.ElemName start) "" then
    (e, Some (errorString "xml: EncodeElement of StartElement with missing name"))
  else
    match v with
    | MarshalerVec v =>
        xml.marshalInterface "lslib.Vec" (Vec_MarshalXML v) e start
    | MarshalerMat m =>
        xml.marshalInterface "lslib.Mat" (Mat_MarshalXML m) e start
    end.

(** [NodeAttribute.MarshalXML]: the encoder after the call and the error
    returned; [None] is the panic of [na.String()].  The errors of the
    encoder are dropped, as the code drops them. *)
Definition MarshalXML (na : NodeAttribute) (e : xml.Encoder)
    (start : xml.StartElement) : option (xml.Encoder * option error) :=
  let t := {| xml.AttrName := "type";
              xml.AttrValue := DataType_String (Type_ na) |} in
  let start :=
    {| xml.ElemName := xml.ElemName start;
       xml.ElemAttr :=
         (xml.ElemAttr start
          ++ [ {| xml.AttrName := "id"; xml.AttrValue := Name na |}; t ])%list |} in
  let v := asXMLMarshaler (Value na) in
  let v1 := asMarshaler (Value na) in
  let start :=
    match v with
    | Some ts => fst (TranslatedString_MarshalXML ts start)
    | None => start
    end in
  let flat :=
    match v, v1 with
    | None, None =>
        match NodeAttribute_String na with
        | Some text =>
            Some {| xml.ElemName := xml.ElemName start;
                    xml.ElemAttr :=
                      (xml.ElemAttr start
                       ++ [ {| xml.AttrName := "value";
                               xml.AttrValue := text |} ])%list |}
        | None => None
        end
    | _, _ => Some start
    end in
  match flat with
  | None => None
  | Some start =>
      let '(e, _) := xml.EncodeToken e (xml.Start start) in
      let e :=
        match v1 with
        | Some v1 =>
            fst (EncodeElement e v1
                   {| xml.ElemName := DataType_String (Type_ na);
                      xml.ElemAttr := [] |})
        | None => e
        end in
      let '(e, _) := xml.EncodeToken e (xml.End_ (xml.ElemName start)) in
      Some (e, None)
  end.

End Format.

(** ** Vocabulary of the statements *)


Definition matrixKinds : list DataType :=
  [DT_Mat2; DT_Mat3; DT_Mat3x4; DT_Mat4x3; DT_Mat4].

Definition ivecKinds : list DataType := [DT_IVec2; DT_IVec3; DT_IVec4].

(** The kinds whose branch assigns the parser's result to [na.Value]
    before it looks at the error. *)
Definition overwritingKinds : list DataType :=
  [DT_Short; DT_UShort; DT_Int; DT_UInt; DT_Float; DT_Double; DT_Bool;
   DT_ScratchBuffer; DT_Long; DT_Int64; DT_Int8; DT_UUID].

(** The text that the switch of [FromString] sees: ["0"] for the empty
    text of a numeric kind. *)
Definition switchText (na : NodeAttribute) (str : string) : string :=
  if IsNumeric na then (if String.eqb str "" then "0" else str) else str.

(** What the parser of a kind of [overwritingKinds] returns for the text
    [str], as the value that the branch of the kind assigns to
    [na.Value]. *)
Definition parsedValue (ParseFloat : string -> Z -> float64 * option error)
    (uuid_Parse : string -> list byte * option error)
    (dt : DataType) (str : string) : option GoValue :=
  match dt with
  | DT_Short => Some (VInt64 (fst (strconv.ParseInt str 0 16)))
  | DT_UShort => Some (VUint64 (fst (strconv.ParseUint str 0 16)))
  | DT_Int => Some (VInt64 (fst (strconv.ParseInt str 0 32)))
  | DT_UInt => Some (VUint64 (fst (strconv.ParseUint str 0 16)))
  | DT_Float => Some (VFloat64 (fst (ParseFloat str 32)))
  | DT_Double => Some (VFloat64 (fst (ParseFloat str 64)))
  | DT_Bool => Some (VBool (fst (strconv.ParseBool str)))
  | DT_ScratchBuffer => Some (VBytes (fst (base64.DecodeString str)))
  | DT_Long | DT_Int64 => Some (VInt64 (fst (strconv.ParseInt str 10 64)))
  | DT_Int8 => Some (VInt64 (fst (strconv.ParseInt str 10 8)))
  | DT_UUID => Some (VUUID (fst (uuid_Parse str)))
  | _ => None
  end.

(** The value and the error of one component of an integer vector. *)
Definition component (v : string) : Z :=
  int (fst (strconv.ParseInt v 0 64)).
Definition componentError (v : string) : option error :=
  snd (strconv.ParseInt v 0 64).

(** The error of the first component that does not parse. *)
Fixpoint firstError (nums : list string) : option error :=
  match nums with
  | [] => None
  | v :: nums' =>
      match componentError v with
      | Some e => Some e
      | None => firstError nums'
      end
  end.

(** The value of the decimal digits [d], read after the value [acc]. *)
Fixpoint horner (d : Decimal.uint) (acc : Z) : Z :=
  match d with
  | Decimal.Nil => acc
  | Decimal.D0 l => horner l (acc * 10 + 0)
  | Decimal.D1 l => horner l (acc * 10 + 1)
  | Decimal.D2 l => horner l (acc * 10 + 2)
  | Decimal.D3 l => horner l (acc * 10 + 3)
  | Decimal.D4 l => horner l (acc * 10 + 4)
  | Decimal.D5 l => horner l (acc * 10 + 5)
  | Decimal.D6 l => horner l (acc * 10 + 6)
  | Decimal.D7 l => horner l (acc * 10 + 7)
  | Decimal.D8 l => horner l (acc * 10 + 8)
  | Decimal.D9 l => horner l (acc * 10 + 9)
  end.

(** Attributes and XML values used as examples. *)
Definition Pos_ivec2 : NodeAttribute :=
  {| Name := "Pos"; Type_ := DT_IVec2; Value := VInts [3; 4] |}.
Definition Pos_ivec3 : NodeAttribute :=
  {| Name := "Pos"; Type_ := DT_IVec3; Value := VNil |}.
Definition Level_int16 : NodeAttribute :=
  {| Name := "Level"; Type_ := DT_Short; Value := VInt64 7 |}.
Definition Count_uint32 : NodeAttribute :=
  {| Name := "Count"; Type_ := DT_UInt; Value := VNil |}.
Definition Size_uint16 : NodeAttribute :=
  {| Name := "Size"; Type_ := DT_UShort; Value := VNil |}.
Definition Flags_uint8 : NodeAttribute :=
  {| Name := "Flags"; Type_ := DT_Byte; Value := VNil |}.
Definition Transform_mat4 : NodeAttribute :=
  {| Name := "Transform"; Type_ := DT_Mat4; Value := VNil |}.
Definition emptyEncoder : xml.Encoder :=
  {| xml.written := []; xml.tags := [] |}.
Definition attributeElement : xml.StartElement :=
  {| xml.ElemName := "attribute"; xml.ElemAttr := [] |}.

(** ** Vocabulary of the further statements *)

(** The ordinals of the 34 constants of the [iota] block. *)
Definition knownKind (dt : DataType) : bool := (0 <=? dt) && (dt <=? DT_Max).

Definition stringKinds : list DataType :=
  [DT_String; DT_Path; DT_FixedString; DT_LSString; DT_WString; DT_LSWString].

Definition vecKinds : list DataType := [DT_Vec2; DT_Vec3; DT_Vec4].

(** The kinds whose branch of [FromString] has no [return err]. *)
Definition neverFailKinds : list DataType :=
  [DT_None; DT_Byte; DT_String; DT_Path; DT_FixedString; DT_LSString;
   DT_ULongLong; DT_TranslatedString; DT_WString; DT_LSWString;
   DT_TranslatedFSString].

(** The kinds whose parser is [strconv.ParseFloat] or [uuid.Parse]. *)
Definition externalKinds : list DataType := [DT_Float; DT_Double; DT_UUID].

(** The texts that [strconv.ParseBool] reads as true and as false. *)
Definition trueLiterals : list string :=
  ["1"; "t"; "T"; "true"; "TRUE"; "True"].
Definition falseLiterals : list string :=
  ["0"; "f"; "F"; "false"; "FALSE"; "False"].

(** The base and the bit size that [FromString] passes to [ParseInt] for
    the signed kinds, and to [ParseUint] for the unsigned ones. *)
Definition signedKind (dt : DataType) : option (Z * Z) :=
  match dt with
  | DT_Short => Some (0, 16)
  | DT_Int => Some (0, 32)
  | DT_Long | DT_Int64 => Some (10, 64)
  | DT_Int8 => Some (10, 8)
  | _ => None
  end.

Definition unsignedKind (dt : DataType) : option (Z * Z) :=
  match dt with
  | DT_UShort | DT_UInt => Some (0, 16)
  | DT_ULongLong => Some (10, 64)
  | _ => None
  end.

(** Attributes used as examples. *)
Definition Title_string : NodeAttribute :=
  {| Name := "Title"; Type_ := DT_LSString; Value := VNil |}.
Definition Future_kind : NodeAttribute :=
  {| Name := "Future"; Type_ := 34; Value := VNil |}.
Definition Depth_int8 : NodeAttribute :=
  {| Name := "Depth"; Type_ := DT_Int8; Value := VNil |}.

(** The error of the first string of [nums] that [parse] refuses. *)
Fixpoint firstErrorOf {A : Type} (parse : string -> A * option error)
    (nums : list string) : option error :=
  match nums with
  | [] => None
  | v :: nums' =>
      match snd (parse v) with
      | Some e => Some e
      | None => firstErrorOf parse nums'
      end
  end.

(** How many times the byte [c] stands in [s]. *)
Fixpoint occurrences (c : ascii) (s : string) : nat :=
  match s with
  | EmptyString => O
  | String c' s' =>
      if Ascii.eqb c' c then S (occurrences c s') else occurrences c s'
  end.

Definition Offset_vec3 : NodeAttribute :=
  {| Name := "Offset"; Type_ := DT_Vec3; Value := VNil |}.

(** ** Vocabulary of the XML statements *)

(** The encoder [e] after the tokens [tokens] were written and every
    element opened by them was closed. *)
Definition writes (e : xml.Encoder) (tokens : list xml.Token) : xml.Encoder :=
  {| xml.written := (xml.written e ++ tokens)%list; xml.tags := xml.tags e |}.

(** The tokens of an element: its start tag, its children, its end tag. *)
Definition element (name : string) (attrs : list xml.Attr)
    (children : list xml.Token) : list xml.Token :=
  (xml.Start {| xml.ElemName := name; xml.ElemAttr := attrs |}
   :: children ++ [xml.End_ name])%list.

Definition attr (name value : string) : xml.Attr :=
  {| xml.AttrName := name; xml.AttrValue := value |}.

(** The names of the components of a vector. *)
Definition axes : list string := ["x"; "y"; "z"; "w"].

(** The attributes that [Vec.MarshalXML] adds: one per component, with
    the component formatted at 32 bits. *)
Definition Vec_axes (ryu : positive -> Z -> Z -> string * Z)
    (v : list float64) : list xml.Attr :=
  map (fun '(axis, x) => attr axis (FormatFloat ryu x 32)) (combine axes v).

(** The two attributes that every attribute element has. *)
Definition idAndType (na : NodeAttribute) : list xml.Attr :=
  [attr "id" (Name na); attr "type" (DataType_String (Type_ na))].

(** The name of the element of a vector of [n] components that is given
    the name [name]. *)
Definition Vec_name (n : nat) (name : string) : string :=
  match n with
  | 0%nat | 1%nat => name
  | 2%nat => "float2"
  | 3%nat => "float3"
  | _ => "float4"
  end.





(** The kinds whose branch of [FromString] returns nil for the empty
    text. *)
Definition emptyTextKinds : list DataType :=
  [DT_None; DT_Byte; DT_Short; DT_Int; DT_UInt; DT_String; DT_Path;
   DT_FixedString; DT_LSString; DT_ULongLong; DT_ScratchBuffer; DT_Long;
   DT_Int8; DT_TranslatedString; DT_WString; DT_LSWString;
   DT_TranslatedFSString].

(** * Properties *)

(** ** The models at concrete inputs *)

Example ParseUint_base_prefixes :
  strconv.ParseUint "0x1F" 0 16 = (31, None) /\
  strconv.ParseUint "0b101" 0 16 = (5, None) /\
  strconv.ParseUint "0o17" 0 16 = (15, None) /\
  strconv.ParseUint "017" 0 16 = (15, None) /\
  strconv.ParseUint "1_000" 0 16 = (1000, None) /\
  strconv.ParseUint "089" 0 16
  = (0, Some (NumError "ParseUint" "089" ErrSyntax)) /\
  strconv.ParseUint "1__0" 0 16
  = (0, Some (NumError "ParseUint" "1__0" ErrSyntax)) /\
  strconv.ParseUint "1_000" 10 64
  = (0, Some (NumError "ParseUint" "1_000" ErrSyntax)).
Proof. repeat split; vm_compute; reflexivity. Qed.

Example ParseUint_limits :
  strconv.ParseUint "18446744073709551615" 10 64
  = (18446744073709551615, None) /\
  strconv.ParseUint "18446744073709551616" 10 64
  = (18446744073709551615,
     Some (NumError "ParseUint" "18446744073709551616" ErrRange)) /\
  strconv.ParseUint "" 10 64 = (0, Some (NumError "ParseUint" "" ErrSyntax)).
Proof. repeat split; vm_compute; reflexivity. Qed.

Example ParseInt_limits :
  strconv.ParseInt "-9223372036854775808" 10 64
  = (-9223372036854775808, None) /\
  strconv.ParseInt "9223372036854775808" 10 64
  = (9223372036854775807,
     Some (NumError "ParseInt" "9223372036854775808" ErrRange)) /\
  strconv.ParseInt "-129" 10 8
  = (-128, Some (NumError "ParseInt" "-129" ErrRange)) /\
  strconv.ParseInt "+127" 10 8 = (127, None) /\
  strconv.ParseInt "-0x8000" 0 16 = (-32768, None) /\
  strconv.ParseInt "-" 0 16 = (0, Some (NumError "ParseInt" "-" ErrSyntax)) /\
  strconv.ParseInt "70000x" 0 16
  = (32767, Some (NumError "ParseInt" "70000x" ErrRange)) /\
  strconv.ParseInt "-300x" 10 8
  = (-128, Some (NumError "ParseInt" "-300x" ErrRange)) /\
  strconv.ParseInt "7x" 0 16 = (0, Some (NumError "ParseInt" "7x" ErrSyntax)).
Proof. repeat split; vm_compute; reflexivity. Qed.

Example Split_periods :
  strings.Split "1.2..3" "." = ["1"; "2"; ""; "3"] /\
  strings.Split "" "." = [""] /\
  strings.Split "." "." = [""; ""].
Proof. repeat split. Qed.

Example base64_texts :
  base64.EncodeToString (list_byte_of_string "light work.")
  = "bGlnaHQgd29yay4=" /\
  base64.EncodeToString (list_byte_of_string "light work")
  = "bGlnaHQgd29yaw==" /\
  base64.EncodeToString [x00; x00; x00] = "AAAA" /\
  base64.DecodeString "bGlnaHQgd29yaw=="
  = (list_byte_of_string "light work", None) /\
  base64.DecodeString "bGlnaHQgd29yaw="
  = (list_byte_of_string "light wor", Some (CorruptInputError 15)) /\
  base64.DecodeString "bGlnaHQgd29yaw==x"
  = (list_byte_of_string "light work", Some (CorruptInputError 16)) /\
  base64.DecodeString "bGlna*"
  = (list_byte_of_string "lig", Some (CorruptInputError 5)) /\
  base64.DecodeString "bGlna"
  = (list_byte_of_string "lig", Some (CorruptInputError 4)).
Proof. repeat split; vm_compute; reflexivity. Qed.

Example fmtF_digits :
  fmtF false "12345" 2 3 = "12.345" /\
  fmtF true "12" 5 0 = "-12000" /\
  fmtF false "12" (-2) 4 = "0.0012" /\
  fmtF true "" 0 0 = "-0".
Proof. repeat split. Qed.

(** ** [strconv]: the bit size of [ParseUint] *)

Module strconv_facts.
Import strconv.

Lemma uint64_small z : 0 <= z < 2 ^ 64 -> uint64 z = z.
Proof. intros H. unfold uint64. apply Z.mod_small. exact H. Qed.

Lemma uint64_range z : 0 <= uint64 z < 2 ^ 64.
Proof. unfold uint64. apply Z.mod_pos_bound. reflexivity. Qed.

(** Case analysis on the digit that the loop reads. *)
Ltac case_digit d :=
  match goal with
  | |- context [match ?dg with Some _ => _ | None => _ end] =>
      destruct dg as [d|]
  end.

Section Loop.
Variables (s0 : string) (base : Z) (base0 : bool).
Hypothesis base_ge : 2 <= base.
Local Abbreviation cutoff := (maxUint64 / base + 1).

(** Below the cutoff the product does not wrap around. *)
Lemma below_cutoff n :
  0 <= n -> (n >=? cutoff) = false -> 0 <= n * base < 2 ^ 64.
Proof.
  intros Hn Hc. rewrite Z.geb_leb in Hc. apply Z.leb_gt in Hc.
  unfold maxUint64 in *.
  assert (Hd : base * ((2 ^ 64 - 1) / base) <= 2 ^ 64 - 1)
    by (apply Z.mul_div_le; lia).
  nia.
Qed.

(** The value read grows with every digit. *)
Lemma ParseUint_loop_mono maxVal s us a n :
  0 <= a ->
  ParseUint_loop s0 base base0 cutoff maxVal s us a = (n, None) -> a <= n.
Proof.
  revert us a. induction s as [|ch s IH]; intros us a Ha; simpl.
  - destruct (us && negb (underscoreOK s0)); intros E; inversion E; lia.
  - destruct ((byteval ch =? 95) && base0).
    + apply IH; assumption.
    + case_digit d; [|discriminate].
      destruct (d >=? base); [discriminate|].
      destruct (a >=? cutoff) eqn:Hc; [discriminate|].
      pose proof (below_cutoff a Ha Hc) as Hb.
      rewrite (uint64_small (a * base)) by exact Hb.
      destruct (uint64 (a * base + d) <? a * base) eqn:Hlt; simpl;
        [discriminate|].
      destruct (uint64 (a * base + d) >? maxVal); [discriminate|].
      intros E. apply IH in E; [|apply uint64_range].
      apply Z.ltb_ge in Hlt. nia.
Qed.

(** A loop that succeeds without a limit gives the same value under the
    limit [m] when the value is within it, and a range error otherwise. *)
Lemma ParseUint_loop_narrow m s us a n :
  0 <= a <= m ->
  ParseUint_loop s0 base base0 cutoff maxUint64 s us a = (n, None) ->
  (n <= m -> ParseUint_loop s0 base base0 cutoff m s us a = (n, None)) /\
  (m < n -> ParseUint_loop s0 base base0 cutoff m s us a
            = (m, Some (rangeError "ParseUint" s0))).
Proof.
  revert us a. induction s as [|ch s IH]; intros us a Ha; simpl.
  - destruct (us && negb (underscoreOK s0)); intros E; inversion E; subst.
    split; [reflexivity | lia].
  - destruct ((byteval ch =? 95) && base0).
    + apply IH; assumption.
    + case_digit d; [|discriminate].
      destruct (d >=? base); [discriminate|].
      destruct (a >=? cutoff) eqn:Hc; [discriminate|].
      pose proof (below_cutoff a (proj1 Ha) Hc) as Hb.
      rewrite (uint64_small (a * base)) by exact Hb.
      destruct (uint64 (a * base + d) <? a * base) eqn:Hlt; simpl;
        [discriminate|].
      destruct (uint64 (a * base + d) >? maxUint64); [discriminate|].
      intros E.
      destruct (uint64 (a * base + d) >? m) eqn:Hm.
      * apply ParseUint_loop_mono in E; [|apply uint64_range].
        apply Z.gtb_lt in Hm. split; [lia | reflexivity].
      * apply IH; [|exact E].
        rewrite Z.gtb_ltb in Hm. apply Z.ltb_ge in Hm.
        pose proof (uint64_range (a * base + d)). lia.
Qed.

End Loop.

Lemma basePrefix_base s : 2 <= fst (basePrefix s).
Proof.
  unfold basePrefix.
  destruct s as [|c0 [|c1 s]]; simpl; try lia.
  - destruct (byteval c0 =? 48); simpl; lia.
  - destruct (byteval c0 =? 48); simpl; [|lia].
    repeat match goal with
           | |- context [if ?b then _ else _] => destruct b; simpl; try lia
           end.
Qed.

(** Parsing at 16 bits against parsing at 64 bits, base 0: the same value
    when it fits 16 bits, a range error otherwise. *)
Lemma ParseUint_narrow16 s n :
  ParseUint s 0 64 = (n, None) ->
  (n <= 65535 -> ParseUint s 0 16 = (n, None)) /\
  (65535 < n ->
   ParseUint s 0 16 = (65535, Some (rangeError "ParseUint" s))).
Proof.
  unfold ParseUint.
  destruct (String.eqb s ""); [discriminate|].
  change ((2 <=? 0) && (0 <=? 36)) with false.
  change (0 =? 0) with true. cbv iota.
  pose proof (basePrefix_base s) as Hb.
  destruct (basePrefix s) as [base digits]. simpl in Hb.
  change (uint64 (uint64 (Z.shiftl 1 (if 64 =? 0 then IntSize else 64)) - 1))
    with maxUint64.
  change (uint64 (uint64 (Z.shiftl 1 (if 16 =? 0 then IntSize else 16)) - 1))
    with 65535.
  cbn [Z.eqb Z.ltb Z.gtb Z.compare Pos.compare Pos.compare_cont orb].
  intros E.
  apply (ParseUint_loop_narrow s base true Hb 65535) in E; [exact E | lia].
Qed.

(** What [ParseInt] returns is an [int64]. *)
Lemma int64_idem z : int64 (int64 z) = int64 z.
Proof.
  unfold int64.
  replace ((z + 2 ^ 63) mod 2 ^ 64 - 2 ^ 63 + 2 ^ 63)
    with ((z + 2 ^ 63) mod 2 ^ 64) by lia.
  rewrite Z.mod_mod by lia. reflexivity.
Qed.

Lemma ParseInt_int64 s base bitSize :
  int64 (fst (ParseInt s base bitSize)) = fst (ParseInt s base bitSize).
Proof.
  unfold ParseInt.
  repeat match goal with
         | |- context [if ?b then _ else _] => destruct b
         | |- context [let '(_, _) := ?x in _] => destruct x
         | |- context [match ?x with Some _ => _ | None => _ end] =>
             destruct x
         | |- context [match ?x with ErrSyntax => _ | _ => _ end] =>
             destruct x
         | |- context [match ?x with NumError _ _ _ => _ | _ => _ end] =>
             destruct x
         | |- context [match ?x with EmptyString => _ | String _ _ => _ end] =>
             destruct x
         end;
    cbn [fst]; try reflexivity; apply int64_idem.
Qed.

(** *** Base-10 texts *)

Lemma horner_mono d : forall acc, 0 <= acc -> acc <= horner d acc.
Proof.
  induction d; intros acc Hacc; cbn [horner]; try lia;
    match goal with
    | |- _ <= horner _ ?a => specialize (IHd a); lia
    end.
Qed.

Lemma horner_of_uint_acc d : forall acc,
  Z.pos (Pos.of_uint_acc d acc) = horner d (Z.pos acc).
Proof.
  induction d; intros acc; cbn [Pos.of_uint_acc horner];
    try reflexivity; rewrite IHd; f_equal; lia.
Qed.

Lemma horner_of_uint d : Z.of_N (Pos.of_uint d) = horner d 0.
Proof.
  induction d; cbn [Pos.of_uint horner]; try reflexivity;
    try (rewrite N2Z.inj_pos, horner_of_uint_acc; reflexivity).
  exact IHd.
Qed.

Lemma horner_to_uint p : horner (Pos.to_uint p) 0 = Z.pos p.
Proof.
  rewrite <- horner_of_uint, DecimalPos.Unsigned.of_to. reflexivity.
Qed.

(** One turn of the digit loop in base 10 on the digit [k]. *)
Lemma loop_digit s0 base0 c k rest acc :
  byteval c = 48 + k -> 0 <= k <= 9 -> 0 <= acc -> acc * 10 + k < 2 ^ 64 ->
  ParseUint_loop s0 10 base0 (maxUint64 / 10 + 1) maxUint64
    (String c rest) false acc
  = ParseUint_loop s0 10 base0 (maxUint64 / 10 + 1) maxUint64
      rest false (acc * 10 + k).
Proof.
  intros Hc Hk Hacc Hlt. cbn [ParseUint_loop]. rewrite Hc.
  change (maxUint64 / 10 + 1) with 1844674407370955162.
  change (2 ^ 64) with 18446744073709551616 in Hlt.
  destruct (Z.eqb_spec (48 + k) 95) as [H|_]; [lia|]. cbn [andb].
  destruct (Z.leb_spec 48 (48 + k)) as [_|H]; [|lia].
  destruct (Z.leb_spec (48 + k) 57) as [_|H]; [|lia]. cbn [andb].
  replace (48 + k - 48) with k by lia.
  destruct (Z.geb_spec k 10) as [H|_]; [lia|].
  destruct (Z.geb_spec acc 1844674407370955162) as [H|_]; [lia|].
  rewrite (uint64_small (acc * 10))
    by (change (2 ^ 64) with 18446744073709551616; lia).
  rewrite (uint64_small (acc * 10 + k))
    by (change (2 ^ 64) with 18446744073709551616; lia).
  destruct (Z.ltb_spec (acc * 10 + k) (acc * 10)) as [H|_]; [lia|].
  rewrite Z.gtb_ltb.
  destruct (Z.ltb_spec maxUint64 (acc * 10 + k)) as [H|_];
    [unfold maxUint64 in H; lia|].
  reflexivity.
Qed.

(** The digit loop reads the digits [d] as [horner] does, as long as the
    value fits 64 bits. *)
Lemma loop_decimal s0 base0 d : forall acc,
  0 <= acc -> horner d acc < 2 ^ 64 ->
  ParseUint_loop s0 10 base0 (maxUint64 / 10 + 1) maxUint64
    (NilEmpty.string_of_uint d) false acc
  = (horner d acc, None).
Proof.
  induction d; intros acc Hacc Hlt;
    cbn [NilEmpty.string_of_uint horner] in *;
    try reflexivity;
    match type of Hlt with
    | horner _ (acc * 10 + ?k) < _ =>
        pose proof (horner_mono d (acc * 10 + k) ltac:(lia)) as Hm;
        rewrite (loop_digit s0 base0 _ k) by (reflexivity || lia);
        apply IHd; [lia | exact Hlt]
    end.
Qed.

Lemma to_uint_no_leading_zero p d' : Pos.to_uint p <> Decimal.D0 d'.
Proof.
  intros H.
  assert (Hn : Pos.to_uint p = Decimal.unorm (Pos.to_uint p)).
  { rewrite <- DecimalPos.Unsigned.to_of, DecimalPos.Unsigned.of_to.
    reflexivity. }
  unfold Decimal.unorm in Hn.
  destruct (Decimal.nzhead (Pos.to_uint p)) eqn:Hz;
    try (rewrite H in Hn; discriminate Hn).
  - apply (DecimalPos.Unsigned.to_uint_nonzero p). congruence.
  - exact (DecimalFacts.nzhead_nonzero _ _ Hz).
Qed.

Lemma basePrefix_decimal c rest :
  byteval c <> 48 -> basePrefix (String c rest) = (10, String c rest).
Proof.
  intros Hc. unfold basePrefix.
  destruct (Z.eqb_spec (byteval c) 48) as [H|_]; [contradiction|].
  destruct rest; reflexivity.
Qed.

(** The base-10 text of [n] reads back as [n]. *)
Lemma ParseUint_Itoa n :
  0 <= n < 2 ^ 64 -> ParseUint (Itoa n) 0 64 = (n, None).
Proof.
  intros Hn. destruct n as [|p|p]; [reflexivity| |lia].
  unfold Itoa. cbn [Z.to_int NilZero.string_of_int].
  pose proof (horner_to_uint p) as Hval.
  pose proof (to_uint_no_leading_zero p) as Hlead.
  pose proof (DecimalPos.Unsigned.to_uint_nonnil p) as Hnil.
  assert (Hloop : forall s0,
    ParseUint_loop s0 10 true (maxUint64 / 10 + 1) maxUint64
      (NilEmpty.string_of_uint (Pos.to_uint p)) false 0 = (Z.pos p, None)).
  { intros s0. rewrite loop_decimal by (rewrite ?Hval; lia).
    now rewrite Hval. }
  unfold NilZero.string_of_uint.
  destruct (Pos.to_uint p) as [|d|d|d|d|d|d|d|d|d|d] eqn:Hd;
    [ contradiction | exfalso; exact (Hlead d eq_refl) | .. ];
    cbn [NilEmpty.string_of_uint] in *;
    unfold ParseUint;
    cbn [String.eqb];
    change ((2 <=? 0) && (0 <=? 36)) with false;
    change (0 =? 0) with true; cbv iota;
    (rewrite basePrefix_decimal by (vm_compute; discriminate));
    apply Hloop.
Qed.

End strconv_facts.

(** ** [base64]: decoding what was encoded *)

Module base64_facts.
Import base64.

Lemma Z_of_byte_range b : 0 <= Z_of_byte b < 256.
Proof.
  unfold Z_of_byte. pose proof (Byte.to_N_bounded b). lia.
Qed.

Lemma byte_of_Z_of_byte b : byte_of_Z (Z_of_byte b) = b.
Proof.
  unfold byte_of_Z. rewrite Z.mod_small by apply Z_of_byte_range.
  unfold Z_of_byte. rewrite N2Z.id, Byte.of_to_N. reflexivity.
Qed.

Lemma lor_shiftl_add hi lo k :
  0 <= k -> 0 <= lo < 2 ^ k -> Z.lor (Z.shiftl hi k) lo = hi * 2 ^ k + lo.
Proof.
  intros Hk Hlo. rewrite <- Z.shiftl_mul_pow2 by exact Hk.
  assert (Hdisj : Z.land (Z.shiftl hi k) lo = 0).
  { apply Z.bits_inj'. intros n Hn. rewrite Z.land_spec, Z.bits_0.
    destruct (Z.lt_ge_cases n k) as [Hlt|Hge].
    - rewrite Z.shiftl_spec_low by exact Hlt. reflexivity.
    - rewrite <- (Z.mod_small lo (2 ^ k)) by exact Hlo.
      rewrite Z.mod_pow2_bits_high by lia. apply andb_false_r. }
  rewrite <- Z.lxor_lor by exact Hdisj.
  symmetry. apply Z.add_nocarry_lxor. exact Hdisj.
Qed.

Lemma land_63 x : Z.land x 63 = x mod 64.
Proof. change 63 with (Z.ones 6). rewrite Z.land_ones by lia. reflexivity. Qed.

Lemma val3_add a b c :
  0 <= a < 256 -> 0 <= b < 256 -> 0 <= c < 256 ->
  val3 a b c = a * 65536 + b * 256 + c.
Proof.
  intros Ha Hb Hc. unfold val3.
  rewrite (lor_shiftl_add a (Z.shiftl b 8) 16);
    [| lia | rewrite Z.shiftl_mul_pow2 by lia; lia ].
  rewrite Z.shiftl_mul_pow2 by lia.
  replace (a * 2 ^ 16 + b * 2 ^ 8) with ((a * 256 + b) * 2 ^ 8) by lia.
  rewrite <- Z.shiftl_mul_pow2 by lia.
  rewrite lor_shiftl_add by lia. lia.
Qed.

Lemma sextet_range val k : 0 <= sextet val k < 64.
Proof. unfold sextet. rewrite land_63. apply Z.mod_pos_bound. lia. Qed.

Lemma sextet_div val k : 0 <= k -> sextet val k = (val / 2 ^ k) mod 64.
Proof. intros. unfold sextet. now rewrite land_63, Z.shiftr_div_pow2. Qed.

(** Four 6-bit digits put together again give the 24-bit value. *)
Lemma join_sextets val :
  0 <= val < 2 ^ 24 ->
  Z.lor (Z.lor (Z.lor (Z.shiftl (sextet val 18) 18) (Z.shiftl (sextet val 12) 12))
               (Z.shiftl (sextet val 6) 6)) (sextet val 0) = val.
Proof.
  intros Hv.
  pose proof (sextet_range val 18). pose proof (sextet_range val 12).
  pose proof (sextet_range val 6). pose proof (sextet_range val 0).
  rewrite (lor_shiftl_add (sextet val 18) (Z.shiftl (sextet val 12) 12) 18);
    [| lia | rewrite Z.shiftl_mul_pow2 by lia; lia ].
  rewrite (Z.shiftl_mul_pow2 (sextet val 12)) by lia.
  replace (sextet val 18 * 2 ^ 18 + sextet val 12 * 2 ^ 12)
    with ((sextet val 18 * 64 + sextet val 12) * 2 ^ 12) by lia.
  rewrite <- Z.shiftl_mul_pow2 by lia.
  rewrite (lor_shiftl_add _ (Z.shiftl (sextet val 6) 6) 12);
    [| lia | rewrite Z.shiftl_mul_pow2 by lia; lia ].
  rewrite (Z.shiftl_mul_pow2 (sextet val 6)) by lia.
  replace ((sextet val 18 * 64 + sextet val 12) * 2 ^ 12 + sextet val 6 * 2 ^ 6)
    with (((sextet val 18 * 64 + sextet val 12) * 64 + sextet val 6) * 2 ^ 6) by lia.
  rewrite <- Z.shiftl_mul_pow2 by lia.
  rewrite lor_shiftl_add by lia.
  rewrite !sextet_div by lia.
  change (2 ^ 18) with 262144. change (2 ^ 12) with 4096.
  change (2 ^ 6) with 64. change (2 ^ 0) with 1. change (2 ^ 24) with 16777216 in Hv.
  rewrite Z.div_1_r.
  Z.to_euclidean_division_equations. lia.
Qed.

Lemma decodeMap_encode i : 0 <= i < 64 -> decodeMap (encode i) = i.
Proof.
  intros Hi.
  assert (Hall : forallb (fun k => decodeMap (encode (Z.of_nat k)) =? Z.of_nat k)
                         (seq 0 64) = true) by (vm_compute; reflexivity).
  rewrite forallb_forall in Hall.
  specialize (Hall (Z.to_nat i)).
  rewrite Z2Nat.id in Hall by lia.
  apply Z.eqb_eq, Hall, in_seq. lia.
Qed.

(** One turn of the loop on a character of the alphabet. *)
Lemma loop_alphabet srclen i rest si j dbuf :
  0 <= i < 64 -> (j < 4)%nat ->
  decodeQuantum_loop srclen (String (encode i) rest) si j dbuf
  = decodeQuantum_loop srclen rest (si + 1) (S j) (setAt j i dbuf).
Proof.
  intros Hi Hj. cbn [decodeQuantum_loop].
  destruct (Nat.leb_spec 4 j) as [Hle|_]; [lia|].
  rewrite decodeMap_encode by exact Hi.
  destruct (Z.eqb_spec i 255) as [He|_]; [lia|]. reflexivity.
Qed.

Lemma loop_full srclen src si dbuf :
  decodeQuantum_loop srclen src si 4 dbuf
  = {| q_rest := src; q_nsi := si; q_out := convert dbuf 4; q_err := None |}.
Proof. destruct src; reflexivity. Qed.

Lemma quantum_four srclen i0 i1 i2 i3 rest si :
  0 <= i0 < 64 -> 0 <= i1 < 64 -> 0 <= i2 < 64 -> 0 <= i3 < 64 ->
  decodeQuantum srclen
    (String (encode i0) (String (encode i1)
       (String (encode i2) (String (encode i3) rest)))) si
  = {| q_rest := rest; q_nsi := si + 1 + 1 + 1 + 1;
       q_out := convert [i0; i1; i2; i3] 4; q_err := None |}.
Proof.
  intros H0 H1 H2 H3. unfold decodeQuantum.
  rewrite !loop_alphabet by (assumption || lia).
  rewrite loop_full. reflexivity.
Qed.

Lemma quantum_three_pad srclen i0 i1 i2 si :
  0 <= i0 < 64 -> 0 <= i1 < 64 -> 0 <= i2 < 64 ->
  si + 4 = srclen ->
  decodeQuantum srclen
    (String (encode i0) (String (encode i1) (String (encode i2) "="))) si
  = {| q_rest := ""; q_nsi := srclen;
       q_out := convert [i0; i1; i2; 0] 3; q_err := None |}.
Proof.
  intros H0 H1 H2 Hlen. unfold decodeQuantum.
  rewrite !loop_alphabet by (assumption || lia).
  cbn -[convert Z.add Z.ltb].
  replace (si + 1 + 1 + 1 + 1) with srclen by lia.
  rewrite Z.ltb_irrefl. reflexivity.
Qed.

Lemma quantum_two_pad srclen i0 i1 si :
  0 <= i0 < 64 -> 0 <= i1 < 64 ->
  si + 4 = srclen ->
  decodeQuantum srclen (String (encode i0) (String (encode i1) "==")) si
  = {| q_rest := ""; q_nsi := srclen;
       q_out := convert [i0; i1; 0; 0] 2; q_err := None |}.
Proof.
  intros H0 H1 Hlen. unfold decodeQuantum.
  rewrite !loop_alphabet by (assumption || lia).
  cbn -[convert Z.add Z.ltb].
  replace (si + 1 + 1 + 1 + 1) with srclen by lia.
  rewrite Z.ltb_irrefl. reflexivity.
Qed.

(** The bytes that [convert] gives back from the digits of a 24-bit value. *)
Lemma convert_sextets val dlen :
  0 <= val < 2 ^ 24 ->
  convert [sextet val 18; sextet val 12; sextet val 6; sextet val 0] dlen
  = firstn (Z.to_nat (dlen - 1))
      [byte_of_Z (val / 65536); byte_of_Z (val / 256); byte_of_Z val].
Proof.
  intros Hv. unfold convert. cbn [nth].
  rewrite join_sextets by exact Hv.
  rewrite !Z.shiftr_div_pow2 by lia.
  change (2 ^ 16) with 65536. change (2 ^ 8) with 256.
  change (2 ^ 0) with 1. rewrite Z.div_1_r. reflexivity.
Qed.

Lemma byte_of_Z_mod z : byte_of_Z (z mod 256) = byte_of_Z z.
Proof. unfold byte_of_Z. rewrite Z.mod_mod by lia. reflexivity. Qed.

Lemma bytes_of_val3 a b c :
  let val := val3 (Z_of_byte a) (Z_of_byte b) (Z_of_byte c) in
  0 <= val < 2 ^ 24 /\
  byte_of_Z (val / 65536) = a /\ byte_of_Z (val / 256) = b /\
  byte_of_Z val = c.
Proof.
  pose proof (Z_of_byte_range a) as Ha. pose proof (Z_of_byte_range b) as Hb.
  pose proof (Z_of_byte_range c) as Hc.
  cbv zeta. rewrite val3_add by assumption.
  change (2 ^ 24) with 16777216.
  split; [lia|]. repeat split.
  - rewrite <- (byte_of_Z_of_byte a) at 2. f_equal.
    Z.to_euclidean_division_equations. lia.
  - rewrite <- (byte_of_Z_of_byte b) at 2. rewrite <- byte_of_Z_mod.
    rewrite <- (byte_of_Z_mod (Z_of_byte b)). f_equal.
    Z.to_euclidean_division_equations. lia.
  - rewrite <- (byte_of_Z_of_byte c) at 2. rewrite <- byte_of_Z_mod.
    rewrite <- (byte_of_Z_mod (Z_of_byte c)). f_equal.
    Z.to_euclidean_division_equations. lia.
Qed.


(** Induction over a list three elements at a time. *)
Lemma list_ind3 {A} (P : list A -> Prop) :
  P [] -> (forall a, P [a]) -> (forall a b, P [a; b]) ->
  (forall a b c l, P l -> P (a :: b :: c :: l)) ->
  forall l, P l.
Proof.
  intros H0 H1 H2 H3 l.
  assert (H : P l /\ (forall a, P (a :: l)) /\ (forall a b, P (a :: b :: l))).
  { induction l as [|x l (IH0 & IH1 & IH2)]; auto. }
  exact (proj1 H).
Qed.

Lemma Encode_length src :
  (List.length src <= String.length (Encode src))%nat.
Proof.
  induction src as [| a | a b | a b c l IH] using list_ind3;
    cbn [Encode String.length List.length]; lia.
Qed.

Lemma len_String c s : len (String c s) = 1 + len s.
Proof. unfold len. cbn [String.length]. lia. Qed.

(** The text of the first three bytes, by the digits of their value. *)
Lemma Encode_three a b c rest :
  let val := val3 (Z_of_byte a) (Z_of_byte b) (Z_of_byte c) in
  Encode (a :: b :: c :: rest)
  = String (encode (sextet val 18)) (String (encode (sextet val 12))
      (String (encode (sextet val 6)) (String (encode (sextet val 0))
         (Encode rest)))).
Proof.
  cbv zeta. cbn [Encode]. unfold sextet, val3.
  rewrite Z.shiftr_0_r. reflexivity.
Qed.

Lemma val3_two a b : Z.lor (Z.shiftl a 16) (Z.shiftl b 8) = val3 a b 0.
Proof. unfold val3. now rewrite Z.lor_0_r. Qed.

Lemma val3_one a : Z.shiftl a 16 = val3 a 0 0.
Proof. unfold val3. change (Z.shiftl 0 8) with 0. now rewrite !Z.lor_0_r. Qed.

Lemma Encode_two a b :
  let val := val3 (Z_of_byte a) (Z_of_byte b) (Z_of_byte x00) in
  Encode [a; b]
  = String (encode (sextet val 18)) (String (encode (sextet val 12))
      (String (encode (sextet val 6)) "="))
  /\ sextet val 0 = 0.
Proof.
  cbv zeta. cbn [Encode]. change (Z_of_byte x00) with 0.
  rewrite val3_two. split; [reflexivity|].
  pose proof (Z_of_byte_range a). pose proof (Z_of_byte_range b).
  rewrite sextet_div, val3_add by lia. change (2 ^ 0) with 1.
  rewrite Z.div_1_r. Z.to_euclidean_division_equations. lia.
Qed.

Lemma Encode_one a :
  let val := val3 (Z_of_byte a) (Z_of_byte x00) (Z_of_byte x00) in
  Encode [a]
  = String (encode (sextet val 18)) (String (encode (sextet val 12)) "==")
  /\ sextet val 6 = 0 /\ sextet val 0 = 0.
Proof.
  cbv zeta. cbn [Encode]. change (Z_of_byte x00) with 0.
  rewrite val3_one. split; [reflexivity|].
  pose proof (Z_of_byte_range a).
  rewrite !sextet_div, val3_add by lia.
  change (2 ^ 0) with 1. change (2 ^ 6) with 64.
  rewrite Z.div_1_r. split; Z.to_euclidean_division_equations; lia.
Qed.

(** Decoding the text of [src] appends [src] to what was decoded before.
    [si] is the index at which the text starts in the whole input. *)
Lemma Decode_loop_Encode src : forall fuel srclen si dst,
  (List.length src <= fuel)%nat ->
  si + len (Encode src) = srclen ->
  Decode_loop fuel srclen (Encode src) si dst = ((dst ++ src)%list, None).
Proof.
  induction src as [| a | a b | a b c l IH] using list_ind3;
    intros fuel srclen si dst Hfuel Hlen.
  - rewrite List.app_nil_r. destruct fuel; reflexivity.
  - destruct fuel as [|fuel]; [simpl in Hfuel; lia|].
    destruct (Encode_one a) as (Henc & H6 & H0).
    destruct (bytes_of_val3 a x00 x00) as (Hv & Ha & _).
    set (val := val3 (Z_of_byte a) (Z_of_byte x00) (Z_of_byte x00)) in *.
    rewrite Henc in Hlen |- *. cbn [Decode_loop].
    rewrite quantum_two_pad
      by (try apply sextet_range; rewrite !len_String in Hlen;
          change (len "") with 0 in Hlen; lia).
    cbn [q_err q_out q_rest q_nsi].
    rewrite <- H6 at 1. rewrite <- H0.
    rewrite convert_sextets by exact Hv. rewrite Ha.
    destruct fuel; reflexivity.
  - destruct fuel as [|fuel]; [simpl in Hfuel; lia|].
    destruct (Encode_two a b) as (Henc & H0).
    destruct (bytes_of_val3 a b x00) as (Hv & Ha & Hb & _).
    set (val := val3 (Z_of_byte a) (Z_of_byte b) (Z_of_byte x00)) in *.
    rewrite Henc in Hlen |- *. cbn [Decode_loop].
    rewrite quantum_three_pad
      by (try apply sextet_range; rewrite !len_String in Hlen;
          change (len "") with 0 in Hlen; lia).
    cbn [q_err q_out q_rest q_nsi].
    rewrite <- H0.
    rewrite convert_sextets by exact Hv. rewrite Ha, Hb.
    destruct fuel; reflexivity.
  - destruct fuel as [|fuel]; [simpl in Hfuel; lia|].
    pose proof (Encode_three a b c l) as Henc.
    destruct (bytes_of_val3 a b c) as (Hv & Ha & Hb & Hc).
    set (val := val3 (Z_of_byte a) (Z_of_byte b) (Z_of_byte c)) in *.
    cbv zeta in Henc. rewrite Henc in Hlen |- *. cbn [Decode_loop].
    rewrite quantum_four by apply sextet_range.
    cbn [q_err q_out q_rest q_nsi].
    rewrite convert_sextets by exact Hv. rewrite Ha, Hb, Hc.
    cbn [Z.sub Z.to_nat Z.add Z.opp Z.pos_sub Pos.pred_double Pos.to_nat
         Pos.iter_op Nat.add firstn].
    rewrite IH.
    + rewrite <- List.app_assoc. reflexivity.
    + simpl in Hfuel. lia.
    + rewrite !len_String in Hlen. lia.
Qed.

(** Decoding the text of a byte sequence gives the sequence back. *)
Lemma DecodeString_EncodeToString src :
  DecodeString (EncodeToString src) = (src, None).
Proof.
  unfold DecodeString, EncodeToString.
  rewrite Decode_loop_Encode; [reflexivity | | lia].
  pose proof (Encode_length src). lia.
Qed.

End base64_facts.

(** ** Facts about [FromString] *)

(** Case analysis on a [DataType]: the 34 constants and the rest. *)
Ltac destruct_kind dt :=
  let p := fresh "p" in
  destruct dt as [|p|p];
  [ | do 6 (try destruct p as [p|p|]) | ].

Ltac in_list := cbn [In]; repeat (first [left; reflexivity | right]).


Lemma setIndex_length {A} i (x : A) vec :
  List.length (setIndex i x vec) = List.length vec.
Proof.
  revert i; induction vec as [|h t IH]; intros [|i]; simpl; auto.
Qed.

Lemma setIndex_app {A} (done : list A) x y rest :
  setIndex (List.length done) x (done ++ y :: rest)%list
  = (done ++ x :: rest)%list.
Proof. induction done as [|h t IH]; simpl; [reflexivity|]. now rewrite IH. Qed.

(** The loop writes the components in order: started after [done], over a
    [vec] with one place per string left, it ends with [done] followed by
    the components, or with the first error. *)
Lemma parseIvec_spec nums : forall done rest,
  List.length rest = List.length nums ->
  parseIvec nums (List.length done) (done ++ rest)%list
  = match firstError nums with
    | Some e => inl e
    | None => inr (done ++ map component nums)%list
    end.
Proof.
  induction nums as [|v nums IH]; intros done rest Hlen.
  - destruct rest; [|discriminate]. reflexivity.
  - destruct rest as [|r rest]; [discriminate|].
    cbn [parseIvec firstError map]. unfold componentError, component.
    destruct (strconv.ParseInt v 0 64) as [n [e|]]; cbn [fst snd].
    + reflexivity.
    + rewrite setIndex_app.
      replace (S (List.length done)) with (List.length (done ++ [int n])%list)
        by (rewrite List.length_app; simpl; lia).
      change (done ++ int n :: rest)%list with (done ++ [int n] ++ rest)%list.
      rewrite List.app_assoc, IH by (simpl in Hlen; lia).
      destruct (firstError nums); [reflexivity|].
      now rewrite <- List.app_assoc.
Qed.

(** A component is the integer that [ParseInt] returns. *)
Lemma component_value v : component v = fst (strconv.ParseInt v 0 64).
Proof. apply strconv_facts.ParseInt_int64. Qed.

Lemma firstError_None nums :
  firstError nums = None <-> Forall (fun v => componentError v = None) nums.
Proof.
  induction nums as [|v nums IH]; simpl.
  - split; auto.
  - destruct (componentError v) eqn:E; split; intros H.
    + discriminate.
    + inversion H; congruence.
    + constructor; [assumption | now apply IH].
    + inversion H; now apply IH.
Qed.

(** The loop as [FromString] starts it: over a fresh [vec] of as many
    zeros as there are parts. *)
Lemma parseIvec_fresh nums length :
  length = Z.of_nat (List.length nums) ->
  parseIvec nums 0 (repeat 0 (Z.to_nat length))
  = match firstError nums with
    | Some e => inl e
    | None => inr (map component nums)
    end.
Proof.
  intros ->. rewrite Nat2Z.id.
  apply (parseIvec_spec nums [] (repeat 0 (List.length nums))).
  apply repeat_length.
Qed.

Section Claims.

Variable pf : string -> Z -> float64 * option error.
Variable up : string -> list byte * option error.
Variable ryu : positive -> Z -> Z -> string * Z.
Variable so : GoValue -> string.


(** The kinds uint16 and int64 are not among the numeric ones: for them
    the empty text is a syntax error and ["0"] is zero. *)
Lemma FromString_empty_not_numeric name v :
  IsNumeric {| Name := name; Type_ := DT_UShort; Value := v |} = false /\
  IsNumeric {| Name := name; Type_ := DT_Int64; Value := v |} = false /\
  snd (FromString pf up {| Name := name; Type_ := DT_UShort; Value := v |} "")
  = Some (NumError "ParseUint" "" ErrSyntax) /\
  snd (FromString pf up {| Name := name; Type_ := DT_UShort; Value := v |} "0")
  = None /\
  snd (FromString pf up {| Name := name; Type_ := DT_Int64; Value := v |} "")
  = Some (NumError "ParseInt" "" ErrSyntax) /\
  snd (FromString pf up {| Name := name; Type_ := DT_Int64; Value := v |} "0")
  = None.
Proof. repeat split. Qed.

(** C6. For each of the five matrix kinds and every text, [FromString]
    returns the error "not implemented" and leaves the attribute as it
    was. *)
Theorem FromString_matrix_not_implemented na str :
  In (Type_ na) matrixKinds ->
  FromString pf up na str = (na, Some (errorString "not implemented")).
Proof.
  unfold matrixKinds. cbn [In]. intros H. unfold FromString.
  repeat (destruct H as [H|H]; [rewrite <- H; reflexivity|]).
  destruct H.
Qed.

(** C10. For the byte kind [FromString] returns no error and stores the
    bytes of the text as they are; the empty text is read as ["0"], whose
    only byte is 0x30. *)
Theorem FromString_Byte_verbatim na str :
  Type_ na = DT_Byte ->
  snd (FromString pf up na str) = None /\
  (str <> "" ->
   FromString pf up na str
   = (setValue na (VBytes (list_byte_of_string str)), None)) /\
  FromString pf up na "" = (setValue na (VBytes [x30]), None).
Proof.
  intros H. unfold FromString, IsNumeric. rewrite H. cbv iota.
  repeat split.
  intros Hne. destruct (String.eqb_spec str ""); [contradiction|reflexivity].
Qed.

(** C3. For the kind [DT_UInt], named uint32, the width is 16 bits.  A
    text that denotes the integer [n] (Go's grammar of unsigned integers
    with base prefixes, read at 64 bits) is accepted with value [n] when
    [n] is at most 2^16-1, and is refused with a range error when [n] is
    from 2^16 to 2^32-1.  So it is for the base-10 text of every [n] of
    these two ranges. *)
Theorem FromString_UInt_16_bits na :
  Type_ na = DT_UInt ->
  (forall str n,
     strconv.ParseUint str 0 64 = (n, None) ->
     (0 <= n <= 2 ^ 16 - 1 ->
      FromString pf up na str = (setValue na (VUint64 n), None)) /\
     (2 ^ 16 <= n <= 2 ^ 32 - 1 ->
      FromString pf up na str
      = (setValue na (VUint64 (2 ^ 16 - 1)),
         Some (NumError "ParseUint" str ErrRange)))) /\
  (forall n,
     0 <= n <= 2 ^ 16 - 1 ->
     FromString pf up na (strconv.Itoa n) = (setValue na (VUint64 n), None)) /\
  (forall n,
     2 ^ 16 <= n <= 2 ^ 32 - 1 ->
     FromString pf up na (strconv.Itoa n)
     = (setValue na (VUint64 (2 ^ 16 - 1)),
        Some (NumError "ParseUint" (strconv.Itoa n) ErrRange))).
Proof.
  intros H.
  assert (Hgrammar : forall str n,
    strconv.ParseUint str 0 64 = (n, None) ->
    (0 <= n <= 2 ^ 16 - 1 ->
     FromString pf up na str = (setValue na (VUint64 n), None)) /\
    (2 ^ 16 <= n <= 2 ^ 32 - 1 ->
     FromString pf up na str
     = (setValue na (VUint64 (2 ^ 16 - 1)),
        Some (NumError "ParseUint" str ErrRange)))).
  { intros str n E. unfold FromString, IsNumeric. rewrite H. cbv iota.
    destruct (String.eqb_spec str "") as [->|Hne]; [discriminate E|].
    destruct (strconv_facts.ParseUint_narrow16 str n E) as [Hlo Hhi].
    split; intros Hn.
    - rewrite Hlo by lia. reflexivity.
    - rewrite Hhi by lia. reflexivity. }
  split; [exact Hgrammar|].
  split; intros n Hn.
  - apply (Hgrammar (strconv.Itoa n) n); [|exact Hn].
    apply strconv_facts.ParseUint_Itoa. lia.
  - apply (Hgrammar (strconv.Itoa n) n); [|exact Hn].
    apply strconv_facts.ParseUint_Itoa. lia.
Qed.

(** C2, the text is read in base 10 at 64 bits, and the error is lost:
    for the kind [DT_ULongLong] the value is what [ParseUint(str, 10, 64)]
    returns and the error returned is always nil, also for a text that
    [ParseUint] refuses. *)
Theorem FromString_ULongLong_drops_error name v :
  let na := {| Name := name; Type_ := DT_ULongLong; Value := v |} in
  (forall str,
     FromString pf up na str
     = (setValue na
          (VUint64 (fst (strconv.ParseUint
                           (if String.eqb str "" then "0" else str) 10 64))),
        None)) /\
  strconv.ParseUint "12x" 10 64
  = (0, Some (NumError "ParseUint" "12x" ErrSyntax)) /\
  FromString pf up na "12x" = (setValue na (VUint64 0), None) /\
  strconv.ParseUint "18446744073709551616" 10 64
  = (2 ^ 64 - 1, Some (NumError "ParseUint" "18446744073709551616" ErrRange)) /\
  FromString pf up na "18446744073709551616"
  = (setValue na (VUint64 (2 ^ 64 - 1)), None).
Proof.
  intros na. split; [|repeat split; vm_compute; reflexivity].
  intros str. unfold FromString, IsNumeric. subst na. cbn [Type_]. cbv iota.
  destruct (strconv.ParseUint _ 10 64). reflexivity.
Qed.

Lemma returnErr_error na na' err e :
  returnErr na err = (na', Some e) -> na' = na /\ err = Some e.
Proof. destruct err; simpl; intros E; inversion E; auto. Qed.

(** C1, as the code has it.  When [FromString] returns an error, the name
    and the kind of the attribute are as they were.  The value is as it
    was unless the kind is one of [overwritingKinds]: int16, uint16, int32,
    uint32, float, double, bool, ScratchBuffer, old_int64, int64, int8 and
    guid.  The branches of these kinds assign what the parser returned
    before they look at its error, so that after the failed call the
    value is the one the parser returned for the text, whatever the
    attribute held before. *)
Theorem FromString_error_value na str na' e :
  FromString pf up na str = (na', Some e) ->
  (Name na' = Name na /\ Type_ na' = Type_ na) /\
  (~ In (Type_ na) overwritingKinds -> na' = na) /\
  (In (Type_ na) overwritingKinds ->
   Some (Value na') = parsedValue pf up (Type_ na) (switchText na str)).
Proof using pf up.
  clear ryu so.
  unfold FromString, overwritingKinds, IsNumeric, GetColumns.
  destruct na as [nm dt v]. cbn [Type_ Name Value].
  set (str0 := if String.eqb str "" then "0" else str).
  intros E.
  destruct_kind dt; cbv iota beta in E; cbn [DataType_GetColumns] in E;
    try discriminate E;
    repeat match type of E with
           | context [let '(_, _) := ?x in _] => destruct x eqn:?
           | context [if ?b then _ else _] => destruct b
           | context [match ?x with inl _ => _ | inr _ => _ end] => destruct x
           end;
    try discriminate E;
    try (apply returnErr_error in E; destruct E as [-> _]);
    try (inversion E; subst na');
    (split; [split; reflexivity|]);
    (split; [intros Hn; try reflexivity; exfalso; apply Hn; in_list|]);
    intros Hin;
    try (exfalso; cbn [In] in Hin; intuition discriminate; fail);
    unfold parsedValue, switchText, IsNumeric;
    cbn [Type_ Value setValue]; cbv iota; subst str0;
    match goal with H : _ = (_, _) |- _ => rewrite H end; reflexivity.
Qed.

(** C5, as the code has it.  For the kinds ivec2, ivec3 and ivec4 the text
    is split at every period.  When the number of parts is not the column
    count of the kind, the error is the length error with the expected and
    the actual count; when it is, the error is the one [ParseInt] gives for
    the first part that is not a 64-bit signed integer; when every part
    parses, the value is the sequence of the parsed integers.  So the call
    succeeds exactly when the count is right and every part parses. *)
Theorem FromString_ivec na str :
  In (Type_ na) ivecKinds ->
  let nums := strings.Split str "." in
  let columns := fst (GetColumns na) in
  let count := Z.of_nat (List.length nums) in
  FromString pf up na str
  = (if columns =? count then
       match firstError nums with
       | Some e => (na, Some e)
       | None => (setValue na (VInts (map component nums)), None)
       end
     else (na, Some (vectorLengthError columns count))) /\
  (snd (FromString pf up na str) = None <->
   columns = count /\ Forall (fun v => componentError v = None) nums) /\
  (Type_ na = DT_IVec3 ->
   FromString pf up na "1.2.3" = (setValue na (VInts [1; 2; 3]), None) /\
   FromString pf up na "1.2"
   = (na, Some (errorString "A vector of length 3 was expected, got 2"))).
Proof.
  intros Hk nums columns count.
  assert (Hcall :
    FromString pf up na str
    = (if columns =? count then
         match firstError nums with
         | Some e => (na, Some e)
         | None => (setValue na (VInts (map component nums)), None)
         end
       else (na, Some (vectorLengthError columns count)))).
  { subst nums columns count. unfold FromString, GetColumns, IsNumeric.
    unfold ivecKinds in Hk. cbn [In] in Hk.
    destruct Hk as [Hk|[Hk|[Hk|[]]]]; rewrite <- Hk; cbv iota;
      cbn [DataType_GetColumns fst];
      match goal with
      | |- context [negb (?c =? ?n)] =>
          destruct (Z.eqb_spec c n) as [Heq|Hne]; cbn [negb]; [|reflexivity]
      end;
      rewrite (parseIvec_fresh _ _ Heq);
      destruct (firstError (strings.Split str ".")); reflexivity. }
  split; [exact Hcall|]. split.
  - rewrite Hcall.
    destruct (Z.eqb_spec columns count) as [Heq|Hne].
    + rewrite <- firstError_None.
      destruct (firstError nums); cbn [snd]; intuition congruence.
    + cbn [snd]. intuition congruence.
  - intros H3. unfold FromString, IsNumeric, GetColumns. rewrite H3.
    split; reflexivity.
Qed.

(** C7, what the code does at zero.  [NodeAttribute.String] of a double
    that is negative zero is ["-0"], and so it is for a float: the test
    [na.Value == 0] is false for every [float64] and every [float32], and
    the text is made from [v], read before the test, so that the text of
    every double and float is what [FormatFloat] gives.  Positive zero
    gives ["0"]. *)
Theorem String_of_negative_zero name :
  NodeAttribute_String ryu so
    {| Name := name; Type_ := DT_Double; Value := VFloat64 (S754_zero true) |}
  = Some "-0" /\
  NodeAttribute_String ryu so
    {| Name := name; Type_ := DT_Float; Value := VFloat32 (S754_zero true) |}
  = Some "-0" /\
  NodeAttribute_String ryu so
    {| Name := name; Type_ := DT_Double; Value := VFloat64 (S754_zero false) |}
  = Some "0" /\
  NodeAttribute_String ryu so
    {| Name := name; Type_ := DT_Float; Value := VFloat32 (S754_zero false) |}
  = Some "0" /\
  (forall f, equalsIntZero (VFloat64 f) = false
             /\ equalsIntZero (VFloat32 f) = false) /\
  (forall f,
     NodeAttribute_String ryu so
       {| Name := name; Type_ := DT_Double; Value := VFloat64 f |}
     = Some (FormatFloat ryu f 64) /\
     NodeAttribute_String ryu so
       {| Name := name; Type_ := DT_Float; Value := VFloat32 f |}
     = Some (FormatFloat ryu f 32)).
Proof. repeat split. Qed.

(** C8. For every byte sequence [raw], the text of a scratch buffer that
    holds [raw] is its base64 encoding, and [FromString] of that text on a
    scratch buffer returns no error and stores [raw]. *)
Theorem ScratchBuffer_round_trip (raw : list byte) name v0 :
  NodeAttribute_String ryu so
    {| Name := name; Type_ := DT_ScratchBuffer; Value := VBytes raw |}
  = Some (base64.EncodeToString raw) /\
  FromString pf up
    {| Name := name; Type_ := DT_ScratchBuffer; Value := v0 |}
    (base64.EncodeToString raw)
  = ({| Name := name; Type_ := DT_ScratchBuffer; Value := VBytes raw |}, None).
Proof.
  split; [reflexivity|].
  unfold FromString, IsNumeric. cbn [Type_]. cbv iota.
  rewrite base64_facts.DecodeString_EncodeToString. reflexivity.
Qed.


End Claims.

(** ** The claims at concrete inputs *)

(** C1 fails on the code: an int16 attribute that holds 7 is given the
    text ["70000"]; [FromString] returns a range error and the attribute
    holds 32767. *)
Lemma FromString_error_overwrites_value :
  Value Level_int16 = VInt64 7 /\
  (forall pf up,
     FromString pf up Level_int16 "70000"
     = (setValue Level_int16 (VInt64 32767),
        Some (NumError "ParseInt" "70000" ErrRange))) /\
  VInt64 32767 <> VInt64 7.
Proof.
  split; [reflexivity|]. split; [intros; reflexivity | discriminate].
Qed.

(** C1 as the code has it, on an ivec3 attribute and a text of two parts,
    where the error is returned and the attribute is as it was, and on
    the int16 attribute that holds 7 and the text ["70000"], where the
    attribute holds what [ParseInt] returned. *)
Lemma FromString_error_value_witness :
  (forall pf up,
     FromString pf up Pos_ivec3 "1.2"
     = (Pos_ivec3, Some (vectorLengthError 3 2))) /\
  ~ In (Type_ Pos_ivec3) overwritingKinds /\
  (forall pf up, fst (FromString pf up Pos_ivec3 "1.2") = Pos_ivec3) /\
  (forall pf up,
     FromString pf up Level_int16 "70000"
     = (setValue Level_int16 (VInt64 32767),
        Some (NumError "ParseInt" "70000" ErrRange))) /\
  In (Type_ Level_int16) overwritingKinds /\
  (forall pf up,
     Some (Value (setValue Level_int16 (VInt64 32767)))
     = parsedValue pf up (Type_ Level_int16) (switchText Level_int16 "70000")).
Proof.
  assert (Hcall : forall pf up,
            FromString pf up Pos_ivec3 "1.2"
            = (Pos_ivec3, Some (vectorLengthError 3 2)))
    by (intros; reflexivity).
  assert (Hkind : ~ In (Type_ Pos_ivec3) overwritingKinds)
    by (cbn; intuition discriminate).
  assert (Hcall' : forall pf up,
            FromString pf up Level_int16 "70000"
            = (setValue Level_int16 (VInt64 32767),
               Some (NumError "ParseInt" "70000" ErrRange)))
    by (intros; reflexivity).
  assert (Hkind' : In (Type_ Level_int16) overwritingKinds)
    by (cbn; auto).
  split; [exact Hcall|]. split; [exact Hkind|]. split.
  - intros pf up.
    exact (proj1 (proj2 (FromString_error_value pf up Pos_ivec3 "1.2"
                           Pos_ivec3 (vectorLengthError 3 2) (Hcall pf up)))
             Hkind).
  - split; [exact Hcall'|]. split; [exact Hkind'|]. intros pf up.
    exact (proj2 (proj2 (FromString_error_value pf up Level_int16 "70000"
                           _ _ (Hcall' pf up))) Hkind').
Defined.

(** C3 at the texts ["0xffff"], ["65536"] and ["4294967295"]. *)
Lemma FromString_UInt_16_bits_witness :
  Type_ Count_uint32 = DT_UInt /\
  strconv.ParseUint "0xffff" 0 64 = (65535, None) /\
  strconv.ParseUint "65536" 0 64 = (65536, None) /\
  (forall pf up,
     FromString pf up Count_uint32 "0xffff"
     = (setValue Count_uint32 (VUint64 65535), None) /\
     FromString pf up Count_uint32 "65536"
     = (setValue Count_uint32 (VUint64 (2 ^ 16 - 1)),
        Some (NumError "ParseUint" "65536" ErrRange)) /\
     FromString pf up Count_uint32 (strconv.Itoa 4294967295)
     = (setValue Count_uint32 (VUint64 (2 ^ 16 - 1)),
        Some (NumError "ParseUint" (strconv.Itoa 4294967295) ErrRange))).
Proof.
  split; [reflexivity|]. split; [vm_compute; reflexivity|].
  split; [vm_compute; reflexivity|].
  intros pf up.
  destruct (FromString_UInt_16_bits pf up Count_uint32 eq_refl)
    as (Hgrammar & _ & Hdecimal).
  split; [|split].
  - apply (Hgrammar "0xffff" 65535); [vm_compute; reflexivity | lia].
  - apply (Hgrammar "65536" 65536); [vm_compute; reflexivity | lia].
  - apply Hdecimal. lia.
Defined.



(** C5 fails on the code: the text ["1.a.3"] has the three parts that an
    ivec3 needs, and the error is the syntax error of the part ["a"], not
    a length error. *)
Lemma FromString_ivec3_component_error :
  List.length (strings.Split "1.a.3" ".") = 3%nat /\
  (forall pf up,
     FromString pf up Pos_ivec3 "1.a.3"
     = (Pos_ivec3, Some (NumError "ParseInt" "a" ErrSyntax))) /\
  (forall length n,
     NumError "ParseInt" "a" ErrSyntax <> vectorLengthError length n).
Proof.
  split; [reflexivity|]. split; [intros; reflexivity|].
  intros length n. discriminate.
Qed.

(** C5 as the code has it, at an ivec3 attribute and the text
    ["0x10.-2.3"]. *)
Lemma FromString_ivec_witness :
  In (Type_ Pos_ivec3) ivecKinds /\
  (forall pf up,
     FromString pf up Pos_ivec3 "0x10.-2.3"
     = (setValue Pos_ivec3 (VInts [16; -2; 3]), None)).
Proof.
  assert (Hk : In (Type_ Pos_ivec3) ivecKinds) by (cbn; auto).
  split; [exact Hk|]. intros pf up.
  rewrite (proj1 (FromString_ivec pf up Pos_ivec3 "0x10.-2.3" Hk)).
  reflexivity.
Defined.

(** C6 at a mat4 attribute. *)
Lemma FromString_matrix_not_implemented_witness :
  In (Type_ Transform_mat4) matrixKinds /\
  (forall pf up,
     FromString pf up Transform_mat4 "1.0.0.0"
     = (Transform_mat4, Some (errorString "not implemented"))).
Proof.
  assert (Hk : In (Type_ Transform_mat4) matrixKinds) by (cbn; auto 10).
  split; [exact Hk|]. intros pf up.
  apply (FromString_matrix_not_implemented pf up Transform_mat4 "1.0.0.0" Hk).
Defined.



(** C10 at a uint8 attribute. *)
Lemma FromString_Byte_verbatim_witness :
  Type_ Flags_uint8 = DT_Byte /\
  (forall pf up,
     FromString pf up Flags_uint8 "0x1F"
     = (setValue Flags_uint8 (VBytes [x30; x78; x31; x46]), None) /\
     FromString pf up Flags_uint8 "" = (setValue Flags_uint8 (VBytes [x30]), None)).
Proof.
  split; [reflexivity|]. intros pf up.
  destruct (FromString_Byte_verbatim pf up Flags_uint8 "0x1F" eq_refl)
    as (_ & Hraw & Hempty).
  split; [|exact Hempty].
  apply Hraw. discriminate.
Defined.

(** * Further properties of the package *)

(** ** Kinds: names, rows and columns *)

Lemma knownKind_ordinal dt :
  knownKind dt = true ->
  dt = Z.of_nat (Z.to_nat dt) /\ (Z.to_nat dt < 34)%nat.
Proof.
  unfold knownKind. intros H. apply andb_true_iff in H.
  destruct H as [H0 H1]. apply Z.leb_le in H0, H1. lia.
Qed.

(** The names of the 34 kinds, in the order of their ordinals. *)
Lemma kind_names_NoDup :
  NoDup (map (fun k => DataType_String (Z.of_nat k)) (seq 0 34)).
Proof.
  cbv [seq map]. cbn.
  repeat (constructor; [cbn [In]; intuition discriminate|]).
  constructor.
Qed.

Lemma DataType_String_known dt :
  DataType_String dt = "" <-> knownKind dt = false.
Proof.
  destruct_kind dt; cbn; split; intros H;
    first [reflexivity | discriminate H].
Qed.

(** X1. [DataType.String] gives the empty name exactly for the ordinals
    that are none of the 34 constants, and it gives two of the constants
    different names. *)
Theorem DataType_String_injective dt1 dt2 :
  (DataType_String dt1 = "" <-> knownKind dt1 = false) /\
  (knownKind dt1 = true ->
   DataType_String dt1 = DataType_String dt2 -> dt1 = dt2).
Proof.
  split; [apply DataType_String_known|].
  intros H1 Heq.
  assert (H2 : knownKind dt2 = true).
  { destruct (knownKind dt2) eqn:E; [reflexivity|].
    apply DataType_String_known in E. rewrite E in Heq.
    apply DataType_String_known in Heq. congruence. }
  destruct (knownKind_ordinal dt1 H1) as [E1 L1].
  destruct (knownKind_ordinal dt2 H2) as [E2 L2].
  pose proof (proj1 (NoDup_nth _ "") kind_names_NoDup
                (Z.to_nat dt1) (Z.to_nat dt2)) as Hnth.
  rewrite length_map, length_seq in Hnth.
  assert (Hn : forall k, (k < 34)%nat ->
            nth k (map (fun k => DataType_String (Z.of_nat k)) (seq 0 34)) ""
            = DataType_String (Z.of_nat k)).
  { intros k Hk.
    rewrite (nth_indep _ "" (DataType_String (Z.of_nat 0)))
      by (rewrite length_map, length_seq; exact Hk).
    rewrite (map_nth (fun k => DataType_String (Z.of_nat k))).
    rewrite seq_nth by exact Hk. reflexivity. }
  rewrite !Hn in Hnth by assumption.
  rewrite <- E1, <- E2 in Hnth.
  rewrite E1, E2. f_equal. apply Hnth; assumption.
Qed.

(** X2. [GetRows] and [GetColumns] answer for the same kinds, the vectors
    and the matrices: there the rows are 1 to 4 (1 exactly for a vector)
    and the columns 2 to 4, and the name of the kind ends in them, as
    [ivec3], [fvec4] or [mat3x4]; for every other kind both return 0 and
    an error. *)
Theorem rows_and_columns_of_kind dt :
  let rows := fst (DataType_GetRows dt) in
  let cols := fst (DataType_GetColumns dt) in
  if (DT_IVec2 <=? dt) && (dt <=? DT_Mat4) then
    snd (DataType_GetRows dt) = None /\
    snd (DataType_GetColumns dt) = None /\
    1 <= rows <= 4 /\ 2 <= cols <= 4 /\
    (rows = 1 <-> dt <= DT_Vec4) /\
    DataType_String dt
    = (if dt <=? DT_IVec4 then "ivec" ++ strconv.Itoa cols
       else if dt <=? DT_Vec4 then "fvec" ++ strconv.Itoa cols
       else "mat" ++ strconv.Itoa rows ++ "x" ++ strconv.Itoa cols)
  else
    rows = 0 /\ cols = 0 /\
    snd (DataType_GetRows dt)
    = Some (errorString "Data type does not have rows") /\
    snd (DataType_GetColumns dt)
    = Some (errorString "Data type does not have columns").
Proof.
  destruct_kind dt; cbn; repeat split; try lia; try discriminate.
Qed.

(** ** [strconv]: the width of what is returned *)

Module strconv_width.
Import strconv.

Lemma int64_small z : - 2 ^ 63 <= z < 2 ^ 63 -> int64 z = z.
Proof.
  intros H. unfold int64. rewrite Z.mod_small; lia.
Qed.

Lemma int64_min : int64 (2 ^ 63) = - 2 ^ 63.
Proof. reflexivity. Qed.

(** [uint64(1)<<uint(bitSize) - 1], with its wrap at 64 bits. *)
Lemma maxVal_pow bits :
  1 <= bits <= 64 ->
  uint64 (uint64 (Z.shiftl 1 bits) - 1) = 2 ^ bits - 1.
Proof.
  intros H. rewrite Z.shiftl_1_l.
  destruct (Z.eq_dec bits 64) as [->|Hne]; [reflexivity|].
  assert (Hp : 0 < 2 ^ bits < 2 ^ 64)
    by (split; [apply Z.pow_pos_nonneg | apply Z.pow_lt_mono_r]; lia).
  unfold uint64. rewrite (Z.mod_small (2 ^ bits)) by lia.
  apply Z.mod_small. lia.
Qed.

Lemma cutoff_pow bits :
  1 <= bits <= 64 -> uint64 (Z.shiftl 1 (bits - 1)) = 2 ^ (bits - 1).
Proof.
  intros H. rewrite Z.shiftl_1_l.
  assert (Hp : 0 < 2 ^ (bits - 1) < 2 ^ 64)
    by (split; [apply Z.pow_pos_nonneg | apply Z.pow_lt_mono_r]; lia).
  apply Z.mod_small. lia.
Qed.

Lemma pow_half bits :
  1 <= bits <= 64 -> 1 <= 2 ^ (bits - 1) <= 2 ^ 63.
Proof.
  intros H. split.
  - assert (0 < 2 ^ (bits - 1)) by (apply Z.pow_pos_nonneg; lia). lia.
  - apply Z.pow_le_mono_r; lia.
Qed.

(** The digit loop returns 0, the limit or a value within the limit. *)
Lemma ParseUint_loop_bound s0 base base0 cutoff maxVal s :
  forall us a, 0 <= a <= maxVal ->
  0 <= fst (ParseUint_loop s0 base base0 cutoff maxVal s us a) <= maxVal.
Proof.
  induction s as [|ch s IH]; intros us a Ha; cbn [ParseUint_loop].
  - destruct (us && negb (underscoreOK s0)); cbn [fst]; lia.
  - destruct ((byteval ch =? 95) && base0); [apply IH; exact Ha|].
    strconv_facts.case_digit d; [|cbn [fst]; lia].
    destruct (d >=? base); [cbn [fst]; lia|].
    destruct (a >=? cutoff); [cbn [fst]; lia|].
    destruct (uint64 (uint64 (a * base) + d) <? uint64 (a * base));
      cbn [orb]; [cbn [fst]; lia|].
    destruct (uint64 (uint64 (a * base) + d) >? maxVal) eqn:Hm;
      [cbn [fst]; lia|].
    apply IH. rewrite Z.gtb_ltb in Hm. apply Z.ltb_ge in Hm.
    pose proof (strconv_facts.uint64_range (uint64 (a * base) + d)). lia.
Qed.

(** What [ParseUint] returns fits [bitSize] bits, with or without an
    error. *)
Lemma ParseUint_bound s base bits :
  1 <= bits <= 64 ->
  0 <= fst (ParseUint s base bits) <= 2 ^ bits - 1.
Proof.
  intros H.
  assert (Hp : 0 < 2 ^ bits) by (apply Z.pow_pos_nonneg; lia).
  unfold ParseUint.
  destruct (String.eqb s ""); [cbn [fst]; lia|].
  match goal with
  | |- context [match ?c with Some _ => _ | None => _ end] =>
      destruct c as [[base' digits]|]
  end; [|cbn [fst]; lia].
  destruct (Z.eqb_spec bits 0) as [H0|_]; [lia|].
  destruct ((bits <? 0) || (bits >? 64)); [cbn [fst]; lia|].
  rewrite maxVal_pow by exact H.
  apply ParseUint_loop_bound. lia.
Qed.

(** What [ParseInt] returns fits [bitSize] bits in two's complement, with
    or without an error. *)
Lemma ParseInt_bound s base bits :
  1 <= bits <= 64 ->
  - 2 ^ (bits - 1) <= fst (ParseInt s base bits) < 2 ^ (bits - 1).
Proof.
  intros H. pose proof (pow_half bits H) as Hc.
  unfold ParseInt.
  destruct (String.eqb s ""); [cbn [fst]; lia|].
  match goal with
  | |- context [let '(_, _) := ?sg in _] => destruct sg as [neg digits]
  end.
  pose proof (ParseUint_bound digits base bits H) as Hun.
  destruct (ParseUint digits base bits) as [un err]. cbn [fst] in Hun.
  match goal with
  | |- context [match ?f with Some _ => _ | None => _ end] =>
      destruct f; [cbn [fst]; lia|]
  end.
  destruct (Z.eqb_spec bits 0) as [H0|_]; [lia|].
  rewrite cutoff_pow by exact H.
  assert (Hlim : 2 ^ bits <= 2 ^ 64) by (apply Z.pow_le_mono_r; lia).
  set (c := 2 ^ (bits - 1)) in *.
  change (2 ^ 64) with 18446744073709551616 in Hlim.
  change (2 ^ 63) with 9223372036854775808 in Hc.
  assert (Hneg : forall z, 0 <= z <= c -> int64 (- int64 z) = - z).
  { intros z Hz. destruct (Z.eq_dec z 9223372036854775808) as [->|Hz'].
    - reflexivity.
    - rewrite (int64_small z), int64_small;
        change (2 ^ 63) with 9223372036854775808; lia. }
  destruct neg; cbn [negb andb].
  - destruct (Z.gtb_spec un c) as [Hgt|Hle]; cbn [fst].
    + rewrite Hneg by lia. lia.
    + rewrite Hneg by lia. lia.
  - destruct (Z.geb_spec un c) as [Hge|Hlt]; cbn [fst].
    + rewrite int64_small
        by (change (2 ^ 63) with 9223372036854775808; lia). lia.
    + rewrite int64_small
        by (change (2 ^ 63) with 9223372036854775808; lia). lia.
Qed.

(** *** Base-10 texts, of any length *)

(** The base-10 text of a number that is not negative starts with a
    digit. *)
Lemma Itoa_digits n :
  0 <= n ->
  exists c rest, Itoa n = String c rest /\ 48 <= byteval c <= 57.
Proof.
  intros Hn. destruct n as [|p|p]; [| |lia].
  - exists "0"%char, "". split; [reflexivity | cbn; lia].
  - unfold Itoa. cbn [Z.to_int NilZero.string_of_int].
    pose proof (DecimalPos.Unsigned.to_uint_nonnil p) as Hnil.
    unfold NilZero.string_of_uint.
    destruct (Pos.to_uint p); [contradiction|..];
      cbn [NilEmpty.string_of_uint]; eexists; eexists;
      (split; [reflexivity | cbn; lia]).
Qed.

Lemma Itoa_neg p : Itoa (Z.neg p) = String "-" (Itoa (Z.pos p)).
Proof. reflexivity. Qed.

(** The base-10 text of [n] reads back as [n] in base 10 as in base 0. *)
Lemma ParseUint_Itoa_base n base :
  base = 0 \/ base = 10 ->
  0 <= n < 2 ^ 64 -> ParseUint (Itoa n) base 64 = (n, None).
Proof.
  intros [->| ->] Hn; [apply strconv_facts.ParseUint_Itoa; exact Hn|].
  destruct (Itoa_digits n (proj1 Hn)) as (c & rest & Hs & Hc).
  unfold ParseUint. rewrite Hs. cbn [String.eqb].
  change ((2 <=? 10) && (10 <=? 36)) with true. cbv iota.
  change (uint64 (uint64 (Z.shiftl 1 (if 64 =? 0 then IntSize else 64)) - 1))
    with maxUint64.
  cbn [Z.eqb Z.ltb Z.gtb Z.compare Pos.compare Pos.compare_cont orb].
  rewrite <- Hs.
  destruct n as [|p|p]; [reflexivity| |lia].
  unfold Itoa. cbn [Z.to_int NilZero.string_of_int].
  pose proof (DecimalPos.Unsigned.to_uint_nonnil p) as Hnil.
  assert (Hstr : NilZero.string_of_uint (Pos.to_uint p)
                 = NilEmpty.string_of_uint (Pos.to_uint p))
    by (unfold NilZero.string_of_uint; destruct (Pos.to_uint p);
        [contradiction | reflexivity ..]).
  rewrite Hstr at 2.
  rewrite strconv_facts.loop_decimal
    by (rewrite ?strconv_facts.horner_to_uint; lia).
  now rewrite strconv_facts.horner_to_uint.
Qed.

(** One turn of the digit loop in base 10 on the digit [k], under the
    limit [m]: the loop goes on while the value is within the limit, and
    ends with a range error as soon as it is not, also when the sum wraps
    around. *)
Lemma loop_digit_limit s0 base0 m c k rest acc :
  byteval c = 48 + k -> 0 <= k <= 9 -> 0 <= acc <= m -> m < 2 ^ 64 ->
  ParseUint_loop s0 10 base0 (maxUint64 / 10 + 1) m (String c rest) false acc
  = if acc * 10 + k <=? m
    then ParseUint_loop s0 10 base0 (maxUint64 / 10 + 1) m rest false
           (acc * 10 + k)
    else (m, Some (rangeError "ParseUint" s0)).
Proof.
  intros Hc Hk Hacc Hm. cbn [ParseUint_loop]. rewrite Hc.
  change (maxUint64 / 10 + 1) with 1844674407370955162.
  change (2 ^ 64) with 18446744073709551616 in Hm.
  destruct (Z.eqb_spec (48 + k) 95) as [H|_]; [lia|]. cbn [andb].
  destruct (Z.leb_spec 48 (48 + k)) as [_|H]; [|lia].
  destruct (Z.leb_spec (48 + k) 57) as [_|H]; [|lia]. cbn [andb].
  replace (48 + k - 48) with k by lia.
  destruct (Z.geb_spec k 10) as [H|_]; [lia|].
  destruct (Z.geb_spec acc 1844674407370955162) as [Hge|Hlt].
  - destruct (Z.leb_spec (acc * 10 + k) m); [lia | reflexivity].
  - rewrite (strconv_facts.uint64_small (acc * 10))
      by (change (2 ^ 64) with 18446744073709551616; lia).
    destruct (Z_lt_le_dec (acc * 10 + k) 18446744073709551616) as [Hs|Hw].
    + rewrite (strconv_facts.uint64_small (acc * 10 + k))
        by (change (2 ^ 64) with 18446744073709551616; lia).
      destruct (Z.ltb_spec (acc * 10 + k) (acc * 10)) as [H|_]; [lia|].
      cbn [orb]. rewrite Z.gtb_ltb.
      destruct (Z.ltb_spec m (acc * 10 + k));
        destruct (Z.leb_spec (acc * 10 + k) m); try lia; reflexivity.
    + assert (Hwrap : uint64 (acc * 10 + k)
                      = acc * 10 + k - 18446744073709551616).
      { unfold uint64. change (2 ^ 64) with 18446744073709551616.
        symmetry. apply (Z.mod_unique _ _ 1); lia. }
      rewrite Hwrap.
      destruct (Z.ltb_spec (acc * 10 + k - 18446744073709551616) (acc * 10))
        as [_|H]; [|lia].
      cbn [orb].
      destruct (Z.leb_spec (acc * 10 + k) m); [lia | reflexivity].
Qed.

(** The digit loop on the digits [d] under the limit [m]: their value
    when it is within the limit, the limit and a range error otherwise,
    however many digits there are. *)
Lemma loop_decimal_limit s0 base0 m d : forall acc,
  0 <= acc <= m -> m < 2 ^ 64 ->
  ParseUint_loop s0 10 base0 (maxUint64 / 10 + 1) m
    (NilEmpty.string_of_uint d) false acc
  = if horner d acc <=? m then (horner d acc, None)
    else (m, Some (rangeError "ParseUint" s0)).
Proof.
  induction d; intros acc Hacc Hm; cbn [NilEmpty.string_of_uint horner];
    [ cbn [ParseUint_loop andb];
      destruct (Z.leb_spec acc m); [reflexivity | lia] | .. ];
    match goal with
    | |- context [horner d (acc * 10 + ?k)] =>
        pose proof (strconv_facts.horner_mono d (acc * 10 + k) ltac:(lia))
          as Hmono;
        rewrite (loop_digit_limit s0 base0 m _ k) by (reflexivity || lia);
        destruct (Z.leb_spec (acc * 10 + k) m) as [Hle|Hgt];
        [ apply IHd; lia
        | destruct (Z.leb_spec (horner d (acc * 10 + k)) m);
          [lia | reflexivity] ]
    end.
Qed.

(** [ParseUint] on the base-10 text of any [n] that is not negative: [n]
    when it is below 2^[bitSize], the limit and a range error otherwise. *)
Lemma ParseUint_decimal n base bits :
  base = 0 \/ base = 10 -> 1 <= bits <= 64 -> 0 <= n ->
  ParseUint (Itoa n) base bits
  = if n <? 2 ^ bits then (n, None)
    else (2 ^ bits - 1, Some (rangeError "ParseUint" (Itoa n))).
Proof.
  intros Hb H Hn.
  assert (Hp : 1 < 2 ^ bits <= 2 ^ 64).
  { split; [|apply Z.pow_le_mono_r; lia].
    change 1 with (2 ^ 0). apply Z.pow_lt_mono_r; lia. }
  pose proof (maxVal_pow bits H) as Hmax.
  assert (Hsize : (if bits =? 0 then IntSize else bits) = bits)
    by (destruct (Z.eqb_spec bits 0); [lia | reflexivity]).
  assert (Hok : (bits <? 0) || (bits >? 64) = false).
  { destruct (Z.ltb_spec bits 0); [lia|]. rewrite Z.gtb_ltb.
    destruct (Z.ltb_spec 64 bits); [lia | reflexivity]. }
  destruct n as [|p|p]; [| |lia].
  - destruct (Z.ltb_spec 0 (2 ^ bits)); [|lia].
    change (Itoa 0) with "0".
    destruct Hb as [-> | ->]; unfold ParseUint; cbn [String.eqb Ascii.eqb];
      cbv zeta; rewrite Hsize, Hok; [reflexivity|].
    change ((2 <=? 10) && (10 <=? 36)) with true. cbv iota. rewrite Hmax.
    rewrite (loop_digit_limit _ _ (2 ^ bits - 1) "0"%char 0)
      by (reflexivity || (change (2 ^ 64) with 18446744073709551616 in *; lia)).
    destruct (Z.leb_spec (0 * 10 + 0) (2 ^ bits - 1)); [reflexivity | lia].
  - unfold Itoa. cbn [Z.to_int NilZero.string_of_int].
    pose proof (strconv_facts.horner_to_uint p) as Hval.
    pose proof (strconv_facts.to_uint_no_leading_zero p) as Hlead.
    pose proof (DecimalPos.Unsigned.to_uint_nonnil p) as Hnil.
    assert (Hloop : forall s0 base0,
      ParseUint_loop s0 10 base0 (maxUint64 / 10 + 1) (2 ^ bits - 1)
        (NilEmpty.string_of_uint (Pos.to_uint p)) false 0
      = if Z.pos p <? 2 ^ bits then (Z.pos p, None)
        else (2 ^ bits - 1, Some (rangeError "ParseUint" s0))).
    { intros s0 base0.
      rewrite loop_decimal_limit
        by (change (2 ^ 64) with 18446744073709551616 in *; lia).
      rewrite Hval.
      destruct (Z.leb_spec (Z.pos p) (2 ^ bits - 1));
        destruct (Z.ltb_spec (Z.pos p) (2 ^ bits)); try lia; reflexivity. }
    unfold NilZero.string_of_uint.
    destruct (Pos.to_uint p) as [|d|d|d|d|d|d|d|d|d|d] eqn:Hd;
      [ contradiction | exfalso; exact (Hlead d eq_refl) | .. ];
      cbn [NilEmpty.string_of_uint] in *;
      unfold ParseUint; cbn [String.eqb];
      (destruct Hb as [-> | ->];
       [ change ((2 <=? 0) && (0 <=? 36)) with false;
         change (0 =? 0) with true; cbv iota;
         rewrite strconv_facts.basePrefix_decimal by (vm_compute; discriminate)
       | change ((2 <=? 10) && (10 <=? 36)) with true; cbv iota ]);
      cbv zeta; rewrite Hsize, Hok, Hmax; apply Hloop.
Qed.

(** [ParseInt] after the sign is taken off, when the digits parse or are
    out of range. *)
Lemma ParseInt_minus d base bits un err :
  ParseUint d base bits = (un, err) ->
  err = None \/ err = Some (rangeError "ParseUint" d) ->
  ParseInt (String "-" d) base bits
  = let bitSize := if bits =? 0 then IntSize else bits in
    let cutoff := uint64 (Z.shiftl 1 (bitSize - 1)) in
    if un >? cutoff then
      (int64 (- int64 cutoff), Some (rangeError "ParseInt" (String "-" d)))
    else (int64 (- int64 un), None).
Proof.
  intros HU He. unfold ParseInt. cbn [String.eqb].
  change (byteval "-" =? 43) with false.
  change (byteval "-" =? 45) with true. cbv iota beta.
  rewrite HU. destruct He as [-> | ->]; reflexivity.
Qed.

Lemma ParseInt_plain c rest base bits un err :
  byteval c <> 43 -> byteval c <> 45 ->
  ParseUint (String c rest) base bits = (un, err) ->
  err = None \/ err = Some (rangeError "ParseUint" (String c rest)) ->
  ParseInt (String c rest) base bits
  = let bitSize := if bits =? 0 then IntSize else bits in
    let cutoff := uint64 (Z.shiftl 1 (bitSize - 1)) in
    if un >=? cutoff then
      (int64 (cutoff - 1), Some (rangeError "ParseInt" (String c rest)))
    else (int64 un, None).
Proof.
  intros Hp Hm HU He. unfold ParseInt. cbn [String.eqb].
  destruct (Z.eqb_spec (byteval c) 43) as [E|_]; [contradiction|].
  destruct (Z.eqb_spec (byteval c) 45) as [E|_]; [contradiction|].
  rewrite HU. destruct He as [-> | ->]; reflexivity.
Qed.

(** [ParseInt] on the base-10 text of any [n]: [n] when it fits [bitSize]
    bits, the nearest limit and a range error otherwise. *)
Lemma ParseInt_Itoa n base bits :
  base = 0 \/ base = 10 ->
  2 <= bits <= 64 ->
  ParseInt (Itoa n) base bits
  = if (- 2 ^ (bits - 1) <=? n) && (n <? 2 ^ (bits - 1)) then (n, None)
    else if 0 <=? n
         then (2 ^ (bits - 1) - 1, Some (rangeError "ParseInt" (Itoa n)))
         else (- 2 ^ (bits - 1), Some (rangeError "ParseInt" (Itoa n))).
Proof.
  intros Hb H2.
  assert (H : 1 <= bits <= 64) by lia.
  pose proof (pow_half bits H) as Hc.
  pose proof (cutoff_pow bits H) as Hcut.
  assert (Hdouble : 2 ^ bits = 2 * 2 ^ (bits - 1)).
  { replace bits with (1 + (bits - 1)) at 1 by lia.
    rewrite Z.pow_add_r by lia. reflexivity. }
  assert (Hc2 : 2 <= 2 ^ (bits - 1)).
  { change 2 with (2 ^ 1) at 1. apply Z.pow_le_mono_r; lia. }
  set (c := 2 ^ (bits - 1)) in *.
  change (2 ^ 63) with 9223372036854775808 in Hc.
  assert (Hneg : forall z, 0 <= z <= c -> int64 (- int64 z) = - z).
  { intros z Hz. destruct (Z.eq_dec z 9223372036854775808) as [->|Hz'].
    - reflexivity.
    - rewrite (int64_small z), int64_small;
        change (2 ^ 63) with 9223372036854775808; lia. }
  assert (Hpos : forall z, 0 <= z < c -> int64 z = z).
  { intros z Hz. apply int64_small.
    change (2 ^ 63) with 9223372036854775808. lia. }
  destruct (Z.eqb_spec bits 0) as [H0|Hbits]; [lia|].
  destruct (Z_lt_le_dec n 0) as [Hlt|Hge].
  - destruct n as [|p|p]; try lia.
    rewrite Itoa_neg.
    pose proof (ParseUint_decimal (Z.pos p) base bits Hb H ltac:(lia)) as HU.
    rewrite Hdouble in HU.
    destruct (Z.ltb_spec (Z.pos p) (2 * c)) as [Hfit|Hbig].
    + rewrite (ParseInt_minus _ base bits _ _ HU (or_introl eq_refl)).
      cbv zeta.
      destruct (Z.eqb_spec bits 0) as [H0|_]; [lia|].
      rewrite Hcut. fold c.
      destruct (Z.leb_spec (- c) (Z.neg p)) as [Hin|Hout];
        destruct (Z.ltb_spec (Z.neg p) c) as [Hin'|Hout']; try lia;
        cbn [andb];
        destruct (Z.gtb_spec (Z.pos p) c) as [Hgt|Hle]; try lia.
      * rewrite Hneg by lia. reflexivity.
      * destruct (Z.leb_spec 0 (Z.neg p)); [lia|].
        rewrite Hneg by lia. reflexivity.
    + rewrite (ParseInt_minus _ base bits _ _ HU (or_intror eq_refl)).
      cbv zeta.
      destruct (Z.eqb_spec bits 0) as [H0|_]; [lia|].
      rewrite Hcut. fold c.
      destruct (Z.leb_spec (- c) (Z.neg p)) as [Hin|Hout]; [lia|].
      cbn [andb].
      destruct (Z.gtb_spec (2 * c - 1) c) as [Hgt|Hle]; [|lia].
      destruct (Z.leb_spec 0 (Z.neg p)); [lia|].
      rewrite Hneg by lia. reflexivity.
  - destruct (Itoa_digits n Hge) as (ch & rest & Hs & Hch).
    pose proof (ParseUint_decimal n base bits Hb H Hge) as HU.
    rewrite Hdouble in HU.
    rewrite Hs in *.
    destruct (Z.ltb_spec n (2 * c)) as [Hfit|Hbig].
    + rewrite (ParseInt_plain ch rest base bits _ _ ltac:(lia) ltac:(lia) HU
                 (or_introl eq_refl)).
      cbv zeta.
      destruct (Z.eqb_spec bits 0) as [H0|_]; [lia|].
      rewrite Hcut. fold c.
      destruct (Z.leb_spec (- c) n) as [Hin|Hout]; [|lia].
      destruct (Z.ltb_spec n c) as [Hin'|Hout']; cbn [andb];
        destruct (Z.geb_spec n c) as [Hgt|Hle]; try lia.
      * rewrite Hpos by lia. reflexivity.
      * destruct (Z.leb_spec 0 n); [|lia].
        rewrite Hpos by lia. reflexivity.
    + rewrite (ParseInt_plain ch rest base bits _ _ ltac:(lia) ltac:(lia) HU
                 (or_intror eq_refl)).
      cbv zeta.
      destruct (Z.eqb_spec bits 0) as [H0|_]; [lia|].
      rewrite Hcut. fold c.
      destruct (Z.leb_spec (- c) n) as [Hin|Hout]; [|lia].
      destruct (Z.ltb_spec n c) as [Hin'|Hout']; [lia|]. cbn [andb].
      destruct (Z.geb_spec (2 * c - 1) c) as [Hgt|Hle]; [|lia].
      destruct (Z.leb_spec 0 n); [|lia].
      rewrite Hpos by lia. reflexivity.
Qed.

Lemma Itoa_not_empty n : Itoa n <> "".
Proof.
  destruct n as [|p|p]; [discriminate| |discriminate].
  destruct (Itoa_digits (Z.pos p) ltac:(lia)) as (c & rest & Hs & _).
  rewrite Hs. discriminate.
Qed.

End strconv_width.

(** ** Strings: appending, splitting and counting *)

Module string_facts.

Lemma append_assoc (a b c : string) : ((a ++ b) ++ c = a ++ (b ++ c))%string.
Proof. induction a as [|x a IH]; cbn; [reflexivity | now rewrite IH]. Qed.

Lemma append_nil_r (a : string) : (a ++ "" = a)%string.
Proof. induction a as [|x a IH]; cbn; [reflexivity | now rewrite IH]. Qed.

Lemma length_append (a b : string) :
  String.length (a ++ b) = (String.length a + String.length b)%nat.
Proof. induction a as [|x a IH]; cbn; [reflexivity | now rewrite IH]. Qed.

Lemma occurrences_append c (a b : string) :
  occurrences c (a ++ b) = (occurrences c a + occurrences c b)%nat.
Proof.
  induction a as [|x a IH]; cbn; [reflexivity|].
  destruct (Ascii.eqb x c); cbn; now rewrite IH.
Qed.

(** [Split] never returns the empty list. *)
Lemma Split_not_nil s sep : strings.Split s sep <> [].
Proof.
  destruct s as [|c s]; cbn; [discriminate|].
  destruct (Ascii.eqb c sep); [discriminate|].
  destruct (strings.Split s sep); discriminate.
Qed.

(** There is one part more than there are separators. *)
Lemma Split_length s sep :
  List.length (strings.Split s sep) = S (occurrences sep s).
Proof.
  induction s as [|c s IH]; cbn; [reflexivity|].
  destruct (Ascii.eqb c sep); cbn; [now rewrite IH|].
  pose proof (Split_not_nil s sep).
  destruct (strings.Split s sep); [contradiction | exact IH].
Qed.

(** No part holds a separator. *)
Lemma Split_parts s sep :
  Forall (fun part => occurrences sep part = O) (strings.Split s sep).
Proof.
  induction s as [|c s IH]; cbn.
  - constructor; [reflexivity | constructor].
  - destruct (Ascii.eqb c sep) eqn:E.
    + constructor; [reflexivity | exact IH].
    + pose proof (Split_not_nil s sep).
      destruct (strings.Split s sep) as [|part parts]; [contradiction|].
      inversion IH; subst. constructor; [|assumption].
      cbn. rewrite E. assumption.
Qed.

(** A text without separator is its only part. *)
Lemma Split_whole s sep : occurrences sep s = O -> strings.Split s sep = [s].
Proof.
  induction s as [|c s IH]; cbn; [reflexivity|].
  destruct (Ascii.eqb c sep); [discriminate|].
  intros H. rewrite (IH H). reflexivity.
Qed.

(** The digits of a base-10 text hold no period and no blank. *)
Lemma digits_plain c d :
  In c ["."; " "; "["; "]"]%char ->
  occurrences c (NilEmpty.string_of_uint d) = O.
Proof.
  intros Hc. cbn [In] in Hc.
  induction d; cbn [NilEmpty.string_of_uint occurrences];
    try reflexivity;
    destruct Hc as [<-|[<-|[<-|[<-|[]]]]]; cbn; exact IHd.
Qed.

Lemma Itoa_plain c n :
  In c ["."; " "; "["; "]"]%char -> occurrences c (strconv.Itoa n) = O.
Proof.
  intros Hc. unfold strconv.Itoa.
  assert (Hu : forall d, occurrences c (NilZero.string_of_uint d) = O).
  { intros d. unfold NilZero.string_of_uint.
    destruct d; try apply digits_plain; try exact Hc.
    cbn [In] in Hc. destruct Hc as [<-|[<-|[<-|[<-|[]]]]]; reflexivity. }
  destruct (Z.to_int n) as [d|d]; cbn [NilZero.string_of_int].
  - apply Hu.
  - cbn [occurrences]. rewrite Hu.
    cbn [In] in Hc. destruct Hc as [<-|[<-|[<-|[<-|[]]]]]; reflexivity.
Qed.

End string_facts.

Section Coverage.

Variable pf : string -> Z -> float64 * option error.
Variable up : string -> list byte * option error.
Variable ryu : positive -> Z -> Z -> string * Z.
Variable so : GoValue -> string.

(** ** [FromString]: what every call keeps *)

(** Case analysis on the branches of [FromString] in a hypothesis. *)
Ltac case_branches E :=
  repeat match type of E with
         | context [let '(_, _) := ?x in _] => destruct x
         | context [if ?b then _ else _] => destruct b
         | context [match ?x with inl _ => _ | inr _ => _ end] => destruct x
         | context [match ?x with Some _ => _ | None => _ end] => destruct x
         end.

(** X3. [FromString] writes to the value only: whatever the text and
    whether it fails or not, the attribute has the name and the kind it
    had. *)
Theorem FromString_keeps_name_and_kind na str :
  Name (fst (FromString pf up na str)) = Name na /\
  Type_ (fst (FromString pf up na str)) = Type_ na.
Proof using pf up.
  destruct (FromString pf up na str) as [na' err] eqn:E. cbn [fst].
  unfold FromString, IsNumeric, GetColumns, returnErr in E.
  destruct na as [nm dt v]. cbn [Type_ Name Value] in *.
  set (str0 := if String.eqb str "" then "0" else str) in E.
  destruct_kind dt; cbv iota beta in E; cbn [DataType_GetColumns] in E;
    case_branches E; inversion E; split; reflexivity.
Qed.

(** X4. For an ordinal that is none of the 34 constants, [FromString]
    returns the error of its last branch, whose message ends where the
    name of the kind would stand, and leaves the attribute as it was. *)
Theorem FromString_unknown_kind na str :
  knownKind (Type_ na) = false ->
  FromString pf up na str
  = (na, Some (errorString "FromString() not implemented for type ")).
Proof using pf up.
  destruct na as [nm dt v]. cbn [Type_]. intros H.
  unfold FromString, IsNumeric. cbn [Type_].
  destruct_kind dt; first [discriminate H | reflexivity].
Qed.

(** X5. For the six string kinds [FromString] never fails and stores the
    text as it is, also the empty text, and [String] of the attribute
    gives the text back. *)
Theorem FromString_string_verbatim na str :
  In (Type_ na) stringKinds ->
  FromString pf up na str = (setValue na (VString str), None) /\
  NodeAttribute_String ryu so (fst (FromString pf up na str)) = Some str.
Proof.
  unfold stringKinds. cbn [In]. intros H.
  destruct na as [nm dt v]. cbn [Type_] in H.
  unfold FromString, IsNumeric, NodeAttribute_String, setValue.
  cbn [Type_ Name Value].
  repeat (destruct H as [H|H]; [subst dt; split; reflexivity|]).
  destruct H.
Qed.

Lemma ParseBool_cases str :
  (In str trueLiterals /\ strconv.ParseBool str = (true, None)) \/
  (In str falseLiterals /\ strconv.ParseBool str = (false, None)) \/
  (~ In str (trueLiterals ++ falseLiterals)%list /\
   strconv.ParseBool str
   = (false, Some (NumError "ParseBool" str ErrSyntax))).
Proof.
  unfold strconv.ParseBool.
  fold trueLiterals. fold falseLiterals.
  destruct (existsb (String.eqb str) trueLiterals) eqn:Ht.
  - left. split; [|reflexivity].
    apply existsb_exists in Ht. destruct Ht as (x & Hin & Hx).
    apply String.eqb_eq in Hx. now subst x.
  - destruct (existsb (String.eqb str) falseLiterals) eqn:Hf.
    + right. left. split; [|reflexivity].
      apply existsb_exists in Hf. destruct Hf as (x & Hin & Hx).
      apply String.eqb_eq in Hx. now subst x.
    + right. right. split; [|reflexivity].
      intros Hin. apply in_app_or in Hin. destruct Hin as [Hin|Hin].
      * assert (existsb (String.eqb str) trueLiterals = true)
          by (apply existsb_exists; exists str; split;
              [exact Hin | apply String.eqb_refl]).
        congruence.
      * assert (existsb (String.eqb str) falseLiterals = true)
          by (apply existsb_exists; exists str; split;
              [exact Hin | apply String.eqb_refl]).
        congruence.
Qed.

(** X6. For the kind bool, [FromString] succeeds exactly on the twelve
    texts of [strconv.ParseBool], six for true and six for false; on any
    other text it returns a syntax error and stores false.  [String] of a
    bool is ["true"] or ["false"], and [FromString] reads it back. *)
Theorem FromString_Bool name v0 :
  let na := {| Name := name; Type_ := DT_Bool; Value := v0 |} in
  (forall str,
     (In str trueLiterals ->
      FromString pf up na str = (setValue na (VBool true), None)) /\
     (In str falseLiterals ->
      FromString pf up na str = (setValue na (VBool false), None)) /\
     (~ In str (trueLiterals ++ falseLiterals)%list ->
      FromString pf up na str
      = (setValue na (VBool false),
         Some (NumError "ParseBool" str ErrSyntax)))) /\
  (forall b text,
     NodeAttribute_String ryu so (setValue na (VBool b)) = Some text ->
     text = (if b then "true" else "false") /\
     FromString pf up na text = (setValue na (VBool b), None)).
Proof.
  intros na. split.
  - intros str.
    assert (Hcall : FromString pf up na str
                    = returnErr (setValue na (VBool (fst (strconv.ParseBool str))))
                        (snd (strconv.ParseBool str))).
    { unfold FromString, IsNumeric. subst na. cbn [Type_]. cbv iota.
      destruct (strconv.ParseBool str). reflexivity. }
    rewrite Hcall.
    assert (Hdisj : forall s, In s trueLiterals -> In s falseLiterals -> False).
    { unfold trueLiterals, falseLiterals. cbn [In]. intros s Ht Hf.
      repeat (destruct Ht as [Ht|Ht]; [subst s; intuition discriminate|]).
      exact Ht. }
    pose proof (in_or_app trueLiterals falseLiterals str) as Happ.
    specialize (Hdisj str).
    destruct (ParseBool_cases str) as [[Hin E]|[[Hin E]|[Hin E]]];
      rewrite E; cbn [fst snd returnErr]; repeat split; intros H;
      try reflexivity; exfalso; tauto.
  - intros b text H. subst na. cbn in H. inversion H. subst text.
    destruct b; split; reflexivity.
Qed.

(** X7. Among the kinds whose parser is modelled here (all but float,
    double and guid), [FromString] accepts every text exactly for the
    kinds of [neverFailKinds]: none, uint8, the six string kinds, uint64
    and the two translated string kinds.  Every other kind refuses the
    text ["!"]. *)
Theorem FromString_accepts_every_text na :
  knownKind (Type_ na) = true ->
  ~ In (Type_ na) externalKinds ->
  ((forall str, snd (FromString pf up na str) = None)
   <-> In (Type_ na) neverFailKinds).
Proof using pf up.
  clear ryu so.
  destruct na as [nm dt v]. cbn [Type_]. intros Hk Hx.
  unfold externalKinds, neverFailKinds in *.
  destruct_kind dt; try discriminate Hk;
    try (exfalso; apply Hx; in_list; fail);
    split; intros H;
    try (intros str; unfold FromString, IsNumeric; cbn [Type_]; cbv iota;
         try destruct (strconv.ParseUint _ 10 64); reflexivity);
    try (in_list; fail);
    try (exfalso; specialize (H "!"); vm_compute in H; discriminate H);
    try (exfalso; cbn [In] in H; intuition discriminate).
Qed.


(** ** [FromString]: the integer kinds *)

Lemma FromString_signed_call na str base bits :
  signedKind (Type_ na) = Some (base, bits) ->
  FromString pf up na str
  = returnErr
      (setValue na (VInt64 (fst (strconv.ParseInt (switchText na str) base bits))))
      (snd (strconv.ParseInt (switchText na str) base bits)) /\
  (base = 0 \/ base = 10) /\ In bits [8; 16; 32; 64].
Proof using pf up.
  destruct na as [nm dt v]. unfold switchText, IsNumeric. cbn [Type_].
  intros H.
  destruct_kind dt; cbn in H; try discriminate H; inversion H; subst;
    unfold FromString, IsNumeric; cbn [Type_]; cbv iota;
    (split; [destruct (strconv.ParseInt _ _ _); reflexivity|]);
    (split; [auto | cbn; auto 6]).
Qed.

Lemma FromString_unsigned_call na str base bits :
  unsignedKind (Type_ na) = Some (base, bits) ->
  (exists err,
     FromString pf up na str
     = (setValue na
          (VUint64 (fst (strconv.ParseUint (switchText na str) base bits))),
        err) /\
     (Type_ na <> DT_ULongLong ->
      err = snd (strconv.ParseUint (switchText na str) base bits)) /\
     (Type_ na = DT_ULongLong -> err = None)) /\
  ((base = 0 /\ bits = 16) \/ (base = 10 /\ bits = 64)).
Proof using pf up.
  destruct na as [nm dt v]. unfold switchText, IsNumeric. cbn [Type_].
  intros H.
  destruct_kind dt; cbn in H; try discriminate H; inversion H; subst;
    unfold FromString, IsNumeric; cbn [Type_]; cbv iota;
    (split; [destruct (strconv.ParseUint _ _ _) as [u [e|]]; cbn [fst snd returnErr];
             eexists; (split; [reflexivity|]); split; intros Hk;
             first [reflexivity | discriminate Hk | exfalso; apply Hk; reflexivity] |]);
    auto.
Qed.

(** [String] of an integer kind is the base-10 text of the value. *)
Lemma String_of_integer_kind na n :
  signedKind (Type_ na) <> None \/ unsignedKind (Type_ na) <> None ->
  NodeAttribute_String ryu so (setValue na (VInt64 n)) = Some (strconv.Itoa n) /\
  NodeAttribute_String ryu so (setValue na (VUint64 n)) = Some (strconv.Itoa n).
Proof using ryu so.
  clear pf up.
  destruct na as [nm dt v]. cbn [Type_]. intros H.
  destruct_kind dt; cbn in H; try (exfalso; intuition congruence; fail);
    split; reflexivity.
Qed.

Lemma switchText_Itoa na n : switchText na (strconv.Itoa n) = strconv.Itoa n.
Proof.
  unfold switchText.
  destruct (String.eqb_spec (strconv.Itoa n) "") as [E|_];
    [destruct (strconv_width.Itoa_not_empty n E)|].
  destruct (IsNumeric na); reflexivity.
Qed.

(** X9. The signed kinds and their widths: int16 is read at 16 bits,
    int32 at 32, int8 at 8, int64 and old_int64 at 64.  The base-10 text
    of an [n] within the width is stored as [n], and [String] gives the
    text back; every other integer [n], however long its text, is refused
    with a range error and the value stored is the nearest limit of the
    width. *)
Theorem FromString_signed_round_trip na base bits n :
  signedKind (Type_ na) = Some (base, bits) ->
  (- 2 ^ (bits - 1) <= n < 2 ^ (bits - 1) ->
   FromString pf up na (strconv.Itoa n) = (setValue na (VInt64 n), None) /\
   NodeAttribute_String ryu so (fst (FromString pf up na (strconv.Itoa n)))
   = Some (strconv.Itoa n)) /\
  (2 ^ (bits - 1) <= n ->
   FromString pf up na (strconv.Itoa n)
   = (setValue na (VInt64 (2 ^ (bits - 1) - 1)),
      Some (NumError "ParseInt" (strconv.Itoa n) ErrRange))) /\
  (n < - 2 ^ (bits - 1) ->
   FromString pf up na (strconv.Itoa n)
   = (setValue na (VInt64 (- 2 ^ (bits - 1))),
      Some (NumError "ParseInt" (strconv.Itoa n) ErrRange))).
Proof.
  intros Hk.
  destruct (FromString_signed_call na (strconv.Itoa n) base bits Hk)
    as (Hcall & Hbase & Hbits).
  assert (Hsome : signedKind (Type_ na) <> None)
    by (rewrite Hk; discriminate).
  assert (Htext := proj1 (String_of_integer_kind na n (or_introl Hsome))).
  rewrite switchText_Itoa in Hcall.
  assert (Hw2 : 2 <= bits <= 64)
    by (cbn [In] in Hbits; lia).
  assert (Hw : 1 <= bits <= 64) by lia.
  rewrite (strconv_width.ParseInt_Itoa n base bits Hbase Hw2) in Hcall.
  rewrite Hcall.
  split; [|split]; intros Hr.
  - destruct (Z.leb_spec (- 2 ^ (bits - 1)) n); [|lia].
    destruct (Z.ltb_spec n (2 ^ (bits - 1))); [|lia].
    cbn [andb fst snd returnErr]. split; [reflexivity | apply Htext].
  - pose proof (strconv_width.pow_half bits Hw).
    destruct (Z.leb_spec (- 2 ^ (bits - 1)) n); [|lia].
    destruct (Z.ltb_spec n (2 ^ (bits - 1))); [lia|].
    destruct (Z.leb_spec 0 n); [|lia]. reflexivity.
  - pose proof (strconv_width.pow_half bits Hw).
    destruct (Z.leb_spec (- 2 ^ (bits - 1)) n); [lia|].
    destruct (Z.leb_spec 0 n); [lia|]. reflexivity.
Qed.

(** X10. After [FromString], with or without an error, an attribute of a
    signed kind holds an [int64] within the width of the kind, and one of
    an unsigned kind holds a [uint64] below 2^16 for uint16 and for
    uint32, and below 2^64 for uint64. *)
Theorem FromString_integer_fits_width na str :
  (forall base bits,
     signedKind (Type_ na) = Some (base, bits) ->
     exists n, Value (fst (FromString pf up na str)) = VInt64 n /\
               - 2 ^ (bits - 1) <= n < 2 ^ (bits - 1)) /\
  (forall base bits,
     unsignedKind (Type_ na) = Some (base, bits) ->
     exists n, Value (fst (FromString pf up na str)) = VUint64 n /\
               0 <= n < 2 ^ bits).
Proof using pf up.
  split; intros base bits Hk.
  - destruct (FromString_signed_call na str base bits Hk)
      as (Hcall & _ & Hbits).
    assert (Hw : 1 <= bits <= 64) by (cbn [In] in Hbits; lia).
    exists (fst (strconv.ParseInt (switchText na str) base bits)).
    split; [|apply strconv_width.ParseInt_bound; exact Hw].
    rewrite Hcall. destruct (snd (strconv.ParseInt _ _ _)); reflexivity.
  - destruct (FromString_unsigned_call na str base bits Hk)
      as ((err & Hcall & _) & Hbits).
    assert (Hw : 1 <= bits <= 64) by lia.
    exists (fst (strconv.ParseUint (switchText na str) base bits)).
    split; [rewrite Hcall; reflexivity|].
    pose proof (strconv_width.ParseUint_bound (switchText na str) base bits Hw).
    lia.
Qed.

(** X11. The unsigned kinds: the base-10 text of an [n] below 2^16 for
    uint16 and uint32, below 2^64 for uint64, is stored as [n], and
    [String] gives the text back. *)
Theorem FromString_unsigned_round_trip na base bits n :
  unsignedKind (Type_ na) = Some (base, bits) ->
  0 <= n < 2 ^ bits ->
  FromString pf up na (strconv.Itoa n) = (setValue na (VUint64 n), None) /\
  NodeAttribute_String ryu so (fst (FromString pf up na (strconv.Itoa n)))
  = Some (strconv.Itoa n).
Proof.
  intros Hk Hn.
  destruct (FromString_unsigned_call na (strconv.Itoa n) base bits Hk)
    as ((err & Hcall & Herr & Hnil) & Hbits).
  assert (Hsome : unsignedKind (Type_ na) <> None)
    by (rewrite Hk; discriminate).
  assert (Htext := proj2 (String_of_integer_kind na n (or_intror Hsome))).
  rewrite switchText_Itoa in Hcall, Herr.
  assert (HU : strconv.ParseUint (strconv.Itoa n) base bits = (n, None)).
  { destruct Hbits as [[-> ->]|[-> ->]].
    - apply strconv_facts.ParseUint_narrow16;
        [apply strconv_facts.ParseUint_Itoa|];
        change (2 ^ 16) with 65536 in Hn;
        change (2 ^ 64) with 18446744073709551616; lia.
    - apply strconv_width.ParseUint_Itoa_base; [now right | exact Hn]. }
  rewrite HU in Hcall, Herr. cbn [fst snd] in *.
  assert (He : err = None).
  { destruct (Z.eq_dec (Type_ na) DT_ULongLong) as [E|E]; auto. }
  subst err. rewrite Hcall. split; [reflexivity | apply Htext].
Qed.

(** ** [FromString] and [String]: the vector kinds *)

(** The loop of the float vectors writes the components in order, or ends
    with the first error. *)
Lemma parseVec_spec nums : forall done rest,
  List.length rest = List.length nums ->
  parseVec pf nums (List.length done) (done ++ rest)%list
  = match firstErrorOf (fun v => pf v 64) nums with
    | Some e => inl e
    | None => inr (done ++ map (fun v => fst (pf v 64)) nums)%list
    end.
Proof using pf.
  induction nums as [|v nums IH]; intros done rest Hlen.
  - destruct rest; [|discriminate]. reflexivity.
  - destruct rest as [|r rest]; [discriminate|].
    cbn [parseVec firstErrorOf map].
    destruct (pf v 64) as [x [e|]]; cbn [fst snd]; [reflexivity|].
    rewrite setIndex_app.
    replace (S (List.length done)) with (List.length (done ++ [x])%list)
      by (rewrite List.length_app; simpl; lia).
    change (done ++ x :: rest)%list with (done ++ [x] ++ rest)%list.
    rewrite List.app_assoc, IH by (simpl in Hlen; lia).
    destruct (firstErrorOf _ nums); [reflexivity|].
    now rewrite <- List.app_assoc.
Qed.

Lemma vector_columns dt :
  In dt (ivecKinds ++ vecKinds)%list ->
  DataType_GetColumns dt = (fst (DataType_GetColumns dt), None) /\
  2 <= fst (DataType_GetColumns dt) <= 4.
Proof.
  unfold ivecKinds, vecKinds. cbn [app In]. intros H.
  repeat (destruct H as [H|H]; [subst dt; cbn; split; [reflexivity | lia]|]).
  destruct H.
Qed.

(** The count of the parts comes before the parts. *)
Lemma FromString_wrong_count na str :
  In (Type_ na) (ivecKinds ++ vecKinds)%list ->
  fst (GetColumns na) <> Z.of_nat (List.length (strings.Split str ".")) ->
  FromString pf up na str
  = (na, Some (vectorLengthError (fst (GetColumns na))
                 (Z.of_nat (List.length (strings.Split str "."))))).
Proof using pf up.
  clear ryu so. intros Hk Hcount.
  unfold FromString, IsNumeric, GetColumns in *.
  unfold ivecKinds, vecKinds in Hk. cbn [app In] in Hk.
  repeat (destruct Hk as [Hk|Hk];
    [rewrite <- Hk in *; cbv iota; cbn [DataType_GetColumns fst] in *;
     match goal with
     | |- context [negb (?c =? ?n)] =>
         destruct (Z.eqb_spec c n) as [E|_]; [contradiction | reflexivity]
     end|]).
  destruct Hk.
Qed.

(** X12. For the six vector kinds the count of the parts comes first: a
    text whose number of periods is not one less than the column count of
    the kind is refused with the length error, whatever its parts are, and
    the attribute is left as it was.  So a float vector whose components
    carry a decimal point is never read. *)
Theorem FromString_vector_periods na str :
  In (Type_ na) (ivecKinds ++ vecKinds)%list ->
  let columns := fst (GetColumns na) in
  let periods := Z.of_nat (occurrences "." str) in
  periods <> columns - 1 ->
  FromString pf up na str
  = (na, Some (vectorLengthError columns (periods + 1))).
Proof using pf up.
  clear ryu so. intros Hk columns periods Hp. subst columns periods.
  pose proof (FromString_wrong_count na str Hk) as Hcount.
  rewrite string_facts.Split_length in Hcount.
  replace (Z.of_nat (S (occurrences "." str)))
    with (Z.of_nat (occurrences "." str) + 1) in Hcount by lia.
  apply Hcount. lia.
Qed.

(** X13. For the kinds fvec2, fvec3 and fvec4, when the number of parts is
    the column count, the error is the one [ParseFloat] gives for the
    first part it refuses, and the attribute is left as it was; when it
    refuses none, the value is the sequence of the floats parsed at 64
    bits. *)
Theorem FromString_vec na str :
  In (Type_ na) vecKinds ->
  let nums := strings.Split str "." in
  fst (GetColumns na) = Z.of_nat (List.length nums) ->
  FromString pf up na str
  = match firstErrorOf (fun v => pf v 64) nums with
    | Some e => (na, Some e)
    | None => (setValue na (VFloats (map (fun v => fst (pf v 64)) nums)), None)
    end.
Proof using pf up.
  intros Hk nums Hcount. subst nums.
  unfold FromString, GetColumns, IsNumeric in *.
  unfold vecKinds in Hk. cbn [In] in Hk.
  destruct Hk as [Hk|[Hk|[Hk|[]]]]; rewrite <- Hk in *; cbv iota;
    cbn [DataType_GetColumns fst] in *;
    rewrite Hcount, Z.eqb_refl; cbn [negb]; rewrite Nat2Z.id;
    pose proof (parseVec_spec (strings.Split str ".") []
                  (repeat (S754_zero false)
                     (List.length (strings.Split str ".")))) as Hloop;
    cbn [List.length app] in Hloop;
    rewrite Hloop by apply repeat_length;
    destruct (firstErrorOf _ _); reflexivity.
Qed.

Lemma concat_blank_cons x l :
  String.concat "" (map (fun v => " " ++ strconv.Itoa v) (x :: l))
  = (" " ++ String.concat " " (map strconv.Itoa (x :: l)))%string.
Proof.
  revert x. induction l as [|y l IH]; intros x; [reflexivity|].
  change (String.concat "" (map (fun v => " " ++ strconv.Itoa v) (x :: y :: l)))
    with ((" " ++ strconv.Itoa x) ++ ""
          ++ String.concat "" (map (fun v => " " ++ strconv.Itoa v) (y :: l)))%string.
  rewrite IH.
  change (String.concat " " (map strconv.Itoa (x :: y :: l)))
    with (strconv.Itoa x ++ " "
          ++ String.concat " " (map strconv.Itoa (y :: l)))%string.
  cbn [String.append]. reflexivity.
Qed.

Lemma Ivec_String_cons x l :
  Ivec_String (x :: l)
  = Some (String.concat " " (map strconv.Itoa (x :: l))).
Proof. unfold Ivec_String. rewrite concat_blank_cons. reflexivity. Qed.

(** X14. [Ivec.String] of a vector that is not empty is its elements in
    base 10 with one blank between two of them; on the empty vector it
    panics. *)
Theorem Ivec_String_join (i : list Z) :
  Ivec_String i
  = match i with
    | [] => None
    | _ :: _ => Some (String.concat " " (map strconv.Itoa i))
    end.
Proof.
  destruct i as [|x l]; [reflexivity | apply Ivec_String_cons].
Qed.

Lemma occurrences_concat c sep l :
  occurrences c sep = O ->
  Forall (fun part => occurrences c part = O) l ->
  occurrences c (String.concat sep l) = O.
Proof.
  intros Hsep Hl. induction Hl as [|x l Hx Hl IH]; [reflexivity|].
  destruct l as [|y l]; [exact Hx|].
  change (String.concat sep (x :: y :: l))
    with (x ++ sep ++ String.concat sep (y :: l))%string.
  rewrite !string_facts.occurrences_append, Hx, Hsep, IH. reflexivity.
Qed.

(** X15. The text of an integer vector is not read back.  For the kinds
    ivec2, ivec3 and ivec4, the text that [String] gives for a value of
    type [[]int], which is what [FromString] stores, or of type [Ivec],
    holds no period, so that [FromString] refuses it with the length
    error: one part where the columns of the kind were expected. *)
Theorem ivec_text_not_read_back na v text :
  In (Type_ na) ivecKinds ->
  Value na = VInts v \/ Value na = VIvec v ->
  NodeAttribute_String ryu so na = Some text ->
  v <> [] ->
  FromString pf up na text
  = (na, Some (vectorLengthError (fst (GetColumns na)) 1)).
Proof using pf up ryu so.
  intros Hk Hv Htext Hne.
  assert (Hplain : occurrences "." text = O).
  { assert (Hparts : Forall (fun part => occurrences "." part = O)
                       (map strconv.Itoa v)).
    { apply Forall_forall. intros part Hin. apply in_map_iff in Hin.
      destruct Hin as (n & <- & _). apply string_facts.Itoa_plain. cbn; auto. }
    assert (Hjoin : occurrences "." (String.concat " " (map strconv.Itoa v)) = O)
      by (apply occurrences_concat; [reflexivity | exact Hparts]).
    destruct na as [nm dt val]. cbn [Value Type_] in *.
    unfold ivecKinds in Hk. cbn [In] in Hk.
    assert (Hs : Some text = Some (Sprint so val)).
    { rewrite <- Htext. unfold NodeAttribute_String. cbn [Type_ Value].
      destruct Hk as [Hk|[Hk|[Hk|[]]]]; rewrite <- Hk; reflexivity. }
    inversion Hs as [Ht]. clear Hs.
    destruct Hv as [-> | ->]; cbn [Sprint].
    - rewrite !string_facts.occurrences_append, Hjoin. reflexivity.
    - destruct v as [|x l]; [contradiction|].
      rewrite Ivec_String_cons. exact Hjoin. }
  pose proof (FromString_wrong_count na text
                (in_or_app _ _ _ (or_introl Hk))) as Hlen.
  rewrite (string_facts.Split_whole _ _ Hplain) in Hlen.
  cbn [List.length Z.of_nat Pos.of_succ_nat] in Hlen.
  apply Hlen.
  destruct (vector_columns (Type_ na) (in_or_app _ _ _ (or_introl Hk)))
    as [_ Hrange].
  unfold GetColumns. lia.
Qed.

(** ** The XML of an attribute *)

Lemma EncodeToken_Start e s :
  xml.ElemName s <> "" ->
  xml.EncodeToken e (xml.Start s)
  = ({| xml.written := (xml.written e ++ [xml.Start s])%list;
        xml.tags := xml.ElemName s :: xml.tags e |}, None).
Proof.
  intros H. unfold xml.EncodeToken. apply String.eqb_neq in H.
  rewrite H. reflexivity.
Qed.

Lemma EncodeToken_End e name below :
  name <> "" -> xml.tags e = name :: below ->
  xml.EncodeToken e (xml.End_ name)
  = ({| xml.written := (xml.written e ++ [xml.End_ name])%list;
        xml.tags := below |}, None).
Proof.
  intros H Ht. unfold xml.EncodeToken. rewrite Ht.
  apply String.eqb_neq in H. rewrite H, String.eqb_refl. reflexivity.
Qed.


(** A start tag and its end tag. *)
Lemma write_empty_element e name attrs :
  name <> "" ->
  (let '(e1, _) :=
     xml.EncodeToken e
       (xml.Start {| xml.ElemName := name; xml.ElemAttr := attrs |}) in
   let '(e2, _) := xml.EncodeToken e1 (xml.End_ name) in e2)
  = writes e (element name attrs []).
Proof.
  intros H. rewrite EncodeToken_Start by exact H.
  erewrite EncodeToken_End; [|exact H|reflexivity].
  unfold writes, element. cbn. rewrite <- List.app_assoc. reflexivity.
Qed.

Lemma Vec_attributes_small v start :
  (List.length v <= 4)%nat ->
  Vec_attributes ryu v 0 start
  = ({| xml.ElemName := Vec_name (List.length v) (xml.ElemName start);
        xml.ElemAttr := (xml.ElemAttr start ++ Vec_axes ryu v)%list |}, None).
Proof using ryu.
  clear pf up so. intros Hlen. destruct start as [name attrs].
  destruct v as [|a [|b [|c [|d [|x v]]]]]; cbn in Hlen; try lia;
    cbn; rewrite <- ?List.app_assoc, ?List.app_nil_r; reflexivity.
Qed.

Lemma Vec_attributes_big v start :
  (4 < List.length v)%nat ->
  snd (Vec_attributes ryu v 0 start) = Some ErrVectorTooBig.
Proof using ryu.
  clear pf up so. intros Hlen.
  destruct v as [|a [|b [|c [|d [|x v]]]]]; cbn in Hlen; try lia.
  reflexivity.
Qed.


Lemma Vec_MarshalXML_small v e start :
  (List.length v <= 4)%nat ->
  Vec_name (List.length v) (xml.ElemName start) <> "" ->
  Vec_MarshalXML ryu v e start
  = (writes e (element (Vec_name (List.length v) (xml.ElemName start))
                 (xml.ElemAttr start ++ Vec_axes ryu v) []), None).
Proof using ryu.
  clear pf up so. intros Hlen Hname. unfold Vec_MarshalXML.
  rewrite Vec_attributes_small by exact Hlen. cbn [xml.ElemName].
  pose proof (write_empty_element e _ (xml.ElemAttr start ++ Vec_axes ryu v)%list
                Hname) as Hw.
  destruct (xml.EncodeToken e _) as [e1 err1].
  destruct (xml.EncodeToken e1 _) as [e2 err2]. now rewrite Hw.
Qed.

Lemma Vec_MarshalXML_big v e start :
  (4 < List.length v)%nat ->
  Vec_MarshalXML ryu v e start = (e, Some ErrVectorTooBig).
Proof using ryu.
  clear pf up so. intros Hlen. unfold Vec_MarshalXML.
  pose proof (Vec_attributes_big v start Hlen) as Hbig.
  destruct (Vec_attributes ryu v 0 start) as [start' err]. cbn in Hbig.
  rewrite Hbig. reflexivity.
Qed.

(** Without a name no token is written. *)
Lemma Vec_MarshalXML_no_name v e start :
  (List.length v <= 4)%nat ->
  Vec_name (List.length v) (xml.ElemName start) = "" ->
  Vec_MarshalXML ryu v e start = (e, None).
Proof using ryu.
  clear pf up so. intros Hlen Hname. unfold Vec_MarshalXML.
  rewrite Vec_attributes_small by exact Hlen.
  unfold xml.EncodeToken. cbn [xml.ElemName]. rewrite Hname. reflexivity.
Qed.

(** X16. [Vec.MarshalXML] on a vector of at most four components returns
    nil and writes one empty element: it is named float2, float3 or
    float4 after the number of components, or keeps the name it was given
    when there are fewer than two, and has one attribute more per
    component, named x, y, z and w in this order, with the component
    formatted at 32 bits.  When that name is empty, which needs fewer
    than two components, the encoder refuses both tags and nothing is
    written.  On a longer vector it returns [ErrVectorTooBig] and writes
    nothing. *)
Theorem Vec_MarshalXML_element v e start :
  let name := Vec_name (List.length v) (xml.ElemName start) in
  ((List.length v <= 4)%nat ->
   Vec_MarshalXML ryu v e start
   = (if String.eqb name "" then e
      else writes e (element name (xml.ElemAttr start ++ Vec_axes ryu v) []),
      None)) /\
  ((4 < List.length v)%nat ->
   Vec_MarshalXML ryu v e start = (e, Some ErrVectorTooBig)) /\
  (name = "" -> (List.length v < 2)%nat /\ xml.ElemName start = "").
Proof using ryu.
  clear pf up so. cbv zeta. split; [|split].
  - intros Hlen.
    destruct (String.eqb_spec (Vec_name (List.length v) (xml.ElemName start)) "")
      as [Hname|Hname].
    + apply Vec_MarshalXML_no_name; assumption.
    + apply Vec_MarshalXML_small; assumption.
  - apply Vec_MarshalXML_big.
  - destruct v as [|a [|b [|c [|d v]]]]; cbn; intros H;
      first [discriminate H | split; [lia | exact H]].
Qed.

(** X17. An attribute whose value has no [MarshalXML] method is written
    as one empty element with the name given: after the attributes it was
    given stand id, type and value, the last with the text of [String];
    the stack of open tags is as before.  It panics only where [String]
    does. *)
Theorem MarshalXML_flat na e start :
  asXMLMarshaler (Value na) = None ->
  asMarshaler (Value na) = None ->
  xml.ElemName start <> "" ->
  MarshalXML ryu so na e start
  = match NodeAttribute_String ryu so na with
    | Some text =>
        Some (writes e (element (xml.ElemName start)
                          (xml.ElemAttr start ++ idAndType na
                           ++ [attr "value" text]) []), None)
    | None => None
    end.
Proof using ryu so.
  clear pf up. intros Hv Hv1 Hname. unfold MarshalXML.
  rewrite Hv, Hv1. destruct (NodeAttribute_String ryu so na) as [text|];
    [|reflexivity].
  cbn [xml.ElemName xml.ElemAttr].
  pose proof (write_empty_element e (xml.ElemName start)
                (xml.ElemAttr start ++ idAndType na ++ [attr "value" text])%list
                Hname) as Hw.
  unfold idAndType, attr in *. cbn [app] in Hw.
  rewrite <- List.app_assoc. cbn [app].
  destruct (xml.EncodeToken e _) as [e1 err1].
  destruct (xml.EncodeToken e1 _) as [e2 err2]. now rewrite Hw.
Qed.

(** X18. [FromString] never stores a value that has a [MarshalXML]
    method: after it, whatever the kind and the text, the value is the
    one the attribute had or is neither a [Vec], a [Mat] nor a translated
    string. *)
Theorem FromString_value_not_marshaler na str :
  let na' := fst (FromString pf up na str) in
  Value na' = Value na \/
  (asXMLMarshaler (Value na') = None /\ asMarshaler (Value na') = None).
Proof using pf up.
  clear ryu so. cbv zeta.
  destruct (FromString pf up na str) as [na' err] eqn:E. cbn [fst].
  unfold FromString, IsNumeric, GetColumns, returnErr in E.
  destruct na as [nm dt v]. cbn [Type_ Name Value] in *.
  set (str0 := if String.eqb str "" then "0" else str) in E.
  destruct_kind dt; cbv iota beta in E; cbn [DataType_GetColumns] in E;
    case_branches E; inversion E; cbn; auto.
Qed.













Lemma length_list_byte_of_string s :
  List.length (list_byte_of_string s) = String.length s.
Proof.
  unfold list_byte_of_string. rewrite length_map.
  induction s as [|c s IH]; cbn; [reflexivity | now rewrite IH].
Qed.

Lemma length_concat_blank (l : list string) :
  Forall (fun part => part <> "") l ->
  (List.length l <= String.length (String.concat " " l))%nat.
Proof.
  intros H. induction H as [|x l Hx Hl IH]; [cbn; lia|].
  assert (1 <= String.length x)%nat by (destruct x; [contradiction | cbn; lia]).
  destruct l as [|y l]; [cbn; lia|].
  change (String.concat " " (x :: y :: l))
    with (x ++ " " ++ String.concat " " (y :: l))%string.
  rewrite !string_facts.length_append. cbn [List.length] in *. lia.
Qed.

(** X24. The text of a [uint8] attribute is never the text it was read
    from: [FromString] stores the bytes of the text and [String] prints
    them as numbers between brackets, which is longer than the text,
    whatever the text is. *)
Theorem FromString_Byte_text_grows na str :
  Type_ na = DT_Byte ->
  exists text,
    NodeAttribute_String ryu so (fst (FromString pf up na str)) = Some text /\
    (String.length str < String.length text)%nat.
Proof using pf up ryu so.
  intros Hk. unfold FromString, IsNumeric. rewrite Hk. cbv iota.
  cbn [fst]. unfold NodeAttribute_String. cbn [setValue Type_ Value].
  rewrite Hk. cbv iota. cbn [Sprint].
  eexists. split; [reflexivity|].
  rewrite !string_facts.length_append. cbn [String.length].
  set (bytes := list_byte_of_string _).
  assert (Hparts : Forall (fun part => part <> "")
                     (map (fun x => strconv.Itoa (base64.Z_of_byte x)) bytes)).
  { apply Forall_forall. intros part Hin. apply in_map_iff in Hin.
    destruct Hin as (x & <- & _). apply strconv_width.Itoa_not_empty. }
  apply length_concat_blank in Hparts. rewrite length_map in Hparts.
  subst bytes. rewrite length_list_byte_of_string in Hparts.
  destruct (String.eqb_spec str "") as [->|_]; cbn [String.length] in *; lia.
Qed.

(** ** [FromString]: the empty text, and reading twice *)

(** X25. Among the kinds whose parser is modelled here, the empty text is
    read without error exactly for the kinds of [emptyTextKinds]: the
    numeric kinds, for which it stands for 0, the kinds that take every
    text, and the scratch buffer.  It is refused for uint16 and int64,
    which [IsNumeric] leaves out though it has their siblings uint32 and
    old_int64, for bool, and for the vector and matrix kinds. *)
Theorem FromString_empty_text na :
  knownKind (Type_ na) = true ->
  ~ In (Type_ na) externalKinds ->
  (snd (FromString pf up na "") = None <-> In (Type_ na) emptyTextKinds).
Proof using pf up.
  clear ryu so.
  destruct na as [nm dt v]. cbn [Type_]. intros Hk Hx.
  unfold externalKinds, emptyTextKinds in *.
  destruct_kind dt; try discriminate Hk;
    try (exfalso; apply Hx; in_list; fail);
    split; intros H;
    try (in_list; fail);
    try (vm_compute; reflexivity);
    try (exfalso; vm_compute in H; discriminate H);
    try (exfalso; cbn [In] in H; intuition discriminate).
Qed.

(** X26. Reading the same text twice is reading it once: [FromString] on
    the attribute that [FromString] left, with the same text, gives the
    same attribute and the same error, for every kind, whether the first
    call failed or not. *)
Theorem FromString_idempotent na str :
  FromString pf up (fst (FromString pf up na str)) str
  = FromString pf up na str.
Proof using pf up.
  clear ryu so.
  destruct na as [nm dt v].
  destruct (FromString pf up {| Name := nm; Type_ := dt; Value := v |} str)
    as [na' err] eqn:E.
  cbn [fst].
  unfold FromString, IsNumeric, GetColumns, returnErr in E.
  cbn [Type_ Name Value] in E.
  destruct_kind dt; cbv iota beta in E; cbn [DataType_GetColumns] in E;
    repeat match type of E with
           | context [let '(_, _) := ?x in _] => destruct x eqn:?
           | context [if ?b then _ else _] => destruct b eqn:?
           | context [match ?x with inl _ => _ | inr _ => _ end] =>
               destruct x eqn:?
           | context [match ?x with Some _ => _ | None => _ end] =>
               destruct x eqn:?
           end;
    inversion E; subst na' err; clear E;
    unfold FromString, IsNumeric, GetColumns, returnErr, setValue;
    cbn [Type_ Name Value DataType_GetColumns]; cbv iota beta;
    repeat (match goal with
            | H : ?x = _ |- context [?x] =>
                tryif is_var x then fail else rewrite H
            end; cbv iota beta);
    reflexivity.
Qed.

End Coverage.

(** ** The further properties at concrete inputs *)

(** X4 at the ordinal 34. *)
Lemma FromString_unknown_kind_witness :
  knownKind (Type_ Future_kind) = false /\
  (forall pf up,
     FromString pf up Future_kind "1"
     = (Future_kind,
        Some (errorString "FromString() not implemented for type "))).
Proof.
  split; [reflexivity|]. intros pf up.
  apply (FromString_unknown_kind pf up Future_kind "1"). reflexivity.
Defined.

(** X5 at an LSString attribute. *)
Lemma FromString_string_verbatim_witness :
  In (Type_ Title_string) stringKinds /\
  (forall pf up ryu so,
     FromString pf up Title_string " a.b "
     = (setValue Title_string (VString " a.b "), None) /\
     NodeAttribute_String ryu so (fst (FromString pf up Title_string " a.b "))
     = Some " a.b ").
Proof.
  assert (Hk : In (Type_ Title_string) stringKinds) by (cbn; auto 10).
  split; [exact Hk|]. intros pf up ryu so.
  apply (FromString_string_verbatim pf up ryu so Title_string " a.b " Hk).
Defined.

(** X7 at an int8 attribute, which refuses a text, and at an LSString
    attribute, which refuses none. *)
Lemma FromString_accepts_every_text_witness :
  knownKind (Type_ Depth_int8) = true /\
  ~ In (Type_ Depth_int8) externalKinds /\
  ~ In (Type_ Depth_int8) neverFailKinds /\
  (forall pf up,
     ~ (forall str, snd (FromString pf up Depth_int8 str) = None)) /\
  (forall pf up str, snd (FromString pf up Title_string str) = None).
Proof.
  assert (Hx : ~ In (Type_ Depth_int8) externalKinds)
    by (cbn; intuition discriminate).
  assert (Hn : ~ In (Type_ Depth_int8) neverFailKinds)
    by (cbn; intuition discriminate).
  split; [reflexivity|]. split; [exact Hx|]. split; [exact Hn|]. split.
  - intros pf up Hall. apply Hn.
    apply (FromString_accepts_every_text pf up Depth_int8 eq_refl Hx).
    exact Hall.
  - intros pf up.
    apply (FromString_accepts_every_text pf up Title_string eq_refl).
    + cbn. intuition discriminate.
    + cbn. auto 10.
Defined.

(** X9 at an int8 attribute and the numbers -128, 128, -129 and 10^20. *)
Lemma FromString_signed_round_trip_witness :
  signedKind (Type_ Depth_int8) = Some (10, 8) /\
  (forall pf up ryu so,
     FromString pf up Depth_int8 "-128"
     = (setValue Depth_int8 (VInt64 (-128)), None) /\
     NodeAttribute_String ryu so (fst (FromString pf up Depth_int8 "-128"))
     = Some "-128" /\
     FromString pf up Depth_int8 "128"
     = (setValue Depth_int8 (VInt64 127),
        Some (NumError "ParseInt" "128" ErrRange)) /\
     FromString pf up Depth_int8 "-129"
     = (setValue Depth_int8 (VInt64 (-128)),
        Some (NumError "ParseInt" "-129" ErrRange)) /\
     FromString pf up Depth_int8 "100000000000000000000"
     = (setValue Depth_int8 (VInt64 127),
        Some (NumError "ParseInt" "100000000000000000000" ErrRange))).
Proof.
  split; [reflexivity|]. intros pf up ryu so.
  pose proof (FromString_signed_round_trip pf up ryu so Depth_int8 10 8)
    as H.
  destruct (H (-128) eq_refl) as (Hin & _ & _).
  destruct (H 128 eq_refl) as (_ & Hhi & _).
  destruct (H (-129) eq_refl) as (_ & _ & Hlo).
  destruct (H 100000000000000000000 eq_refl) as (_ & Hbig & _).
  split; [apply Hin; lia|]. split; [apply Hin; lia|].
  split; [apply Hhi; lia|]. split; [apply Hlo; lia | apply Hbig; lia].
Defined.

(** X11 at a uint16 attribute and the number 65535. *)
Lemma FromString_unsigned_round_trip_witness :
  unsignedKind (Type_ Size_uint16) = Some (0, 16) /\
  (forall pf up ryu so,
     FromString pf up Size_uint16 "65535"
     = (setValue Size_uint16 (VUint64 65535), None) /\
     NodeAttribute_String ryu so (fst (FromString pf up Size_uint16 "65535"))
     = Some "65535").
Proof.
  split; [reflexivity|]. intros pf up ryu so.
  apply (FromString_unsigned_round_trip pf up ryu so Size_uint16 0 16 65535);
    [reflexivity | lia].
Defined.

(** X12 at a fvec3 attribute and a text of three components written with
    a decimal point. *)
Lemma FromString_vector_periods_witness :
  In (Type_ Offset_vec3) (ivecKinds ++ vecKinds)%list /\
  Z.of_nat (occurrences "." "1.5.2.5.3.5") <> fst (GetColumns Offset_vec3) - 1 /\
  (forall pf up,
     FromString pf up Offset_vec3 "1.5.2.5.3.5"
     = (Offset_vec3,
        Some (errorString "A vector of length 3 was expected, got 6"))).
Proof.
  assert (Hk : In (Type_ Offset_vec3) (ivecKinds ++ vecKinds)%list)
    by (cbn; auto 10).
  assert (Hp : Z.of_nat (occurrences "." "1.5.2.5.3.5")
               <> fst (GetColumns Offset_vec3) - 1) by (cbn; lia).
  split; [exact Hk|]. split; [exact Hp|]. intros pf up.
  exact (FromString_vector_periods pf up Offset_vec3 "1.5.2.5.3.5" Hk Hp).
Defined.

(** X13 at a fvec3 attribute and a text of three parts. *)
Lemma FromString_vec_witness :
  In (Type_ Offset_vec3) vecKinds /\
  fst (GetColumns Offset_vec3)
  = Z.of_nat (List.length (strings.Split "1.2.3" ".")) /\
  (forall pf up,
     FromString pf up Offset_vec3 "1.2.3"
     = match firstErrorOf (fun v => pf v 64) ["1"; "2"; "3"] with
       | Some e => (Offset_vec3, Some e)
       | None =>
           (setValue Offset_vec3
              (VFloats [fst (pf "1" 64); fst (pf "2" 64); fst (pf "3" 64)]),
            None)
       end).
Proof.
  assert (Hk : In (Type_ Offset_vec3) vecKinds) by (cbn; auto 10).
  split; [exact Hk|]. split; [reflexivity|]. intros pf up.
  exact (FromString_vec pf up Offset_vec3 "1.2.3" Hk eq_refl).
Defined.

(** X15 at the ivec2 attribute holding 3 and 4. *)
Lemma ivec_text_not_read_back_witness :
  In (Type_ Pos_ivec2) ivecKinds /\
  (forall pf up ryu so,
     NodeAttribute_String ryu so Pos_ivec2 = Some "[3 4]" /\
     FromString pf up Pos_ivec2 "[3 4]"
     = (Pos_ivec2,
        Some (errorString "A vector of length 2 was expected, got 1"))).
Proof.
  assert (Hk : In (Type_ Pos_ivec2) ivecKinds) by (cbn; auto 10).
  split; [exact Hk|]. intros pf up ryu so. split; [reflexivity|].
  apply (ivec_text_not_read_back pf up ryu so Pos_ivec2 [3; 4] "[3 4]" Hk);
    [left; reflexivity | reflexivity | discriminate].
Defined.

(** X16 at the vector of a positive and a negative zero under the name
    fvec2, and at a vector of one component under no name. *)
Lemma Vec_MarshalXML_element_witness :
  (List.length [S754_zero false; S754_zero true] <= 4)%nat /\
  (forall ryu,
     Vec_MarshalXML ryu [S754_zero false; S754_zero true] emptyEncoder
       {| xml.ElemName := "fvec2"; xml.ElemAttr := [] |}
     = (writes emptyEncoder
          (element "float2" [attr "x" "0"; attr "y" "-0"] []), None) /\
     Vec_MarshalXML ryu [S754_zero false] emptyEncoder
       {| xml.ElemName := ""; xml.ElemAttr := [] |}
     = (emptyEncoder, None)).
Proof.
  split; [cbn; lia|]. intros ryu. split.
  - apply (Vec_MarshalXML_element ryu [S754_zero false; S754_zero true]
             emptyEncoder {| xml.ElemName := "fvec2"; xml.ElemAttr := [] |}).
    cbn; lia.
  - apply (Vec_MarshalXML_element ryu [S754_zero false]
             emptyEncoder {| xml.ElemName := ""; xml.ElemAttr := [] |}).
    cbn; lia.
Defined.

(** X17 at the int16 attribute holding 7. *)
Lemma MarshalXML_flat_witness :
  asXMLMarshaler (Value Level_int16) = None /\
  asMarshaler (Value Level_int16) = None /\
  xml.ElemName attributeElement <> "" /\
  (forall ryu so,
     MarshalXML ryu so Level_int16 emptyEncoder attributeElement
     = Some (writes emptyEncoder
               (element "attribute"
                  [attr "id" "Level"; attr "type" "int16"; attr "value" "7"]
                  []), None)).
Proof.
  assert (Hname : xml.ElemName attributeElement <> "") by discriminate.
  split; [reflexivity|]. split; [reflexivity|]. split; [exact Hname|].
  intros ryu so.
  exact (MarshalXML_flat ryu so Level_int16 emptyEncoder attributeElement
           eq_refl eq_refl Hname).
Defined.






(** X24 at a uint8 attribute and the text 7. *)
Lemma FromString_Byte_text_grows_witness :
  Type_ Flags_uint8 = DT_Byte /\
  (forall pf up ryu so,
     exists text,
       NodeAttribute_String ryu so (fst (FromString pf up Flags_uint8 "7"))
       = Some text /\
       (String.length "7" < String.length text)%nat).
Proof.
  split; [reflexivity|]. intros pf up ryu so.
  exact (FromString_Byte_text_grows pf up ryu so Flags_uint8 "7" eq_refl).
Defined.

(** X25 at a uint16 attribute, which refuses the empty text, and at a
    uint32 attribute, which reads it. *)
Lemma FromString_empty_text_witness :
  knownKind (Type_ Size_uint16) = true /\
  ~ In (Type_ Size_uint16) externalKinds /\
  ~ In (Type_ Size_uint16) emptyTextKinds /\
  (forall pf up, snd (FromString pf up Size_uint16 "") <> None) /\
  (forall pf up, snd (FromString pf up Count_uint32 "") = None).
Proof.
  assert (Hx : ~ In (Type_ Size_uint16) externalKinds)
    by (cbn; intuition discriminate).
  assert (Hn : ~ In (Type_ Size_uint16) emptyTextKinds)
    by (cbn; intuition discriminate).
  split; [reflexivity|]. split; [exact Hx|]. split; [exact Hn|]. split.
  - intros pf up Hnil. apply Hn.
    apply (FromString_empty_text pf up Size_uint16 eq_refl Hx). exact Hnil.
  - intros pf up.
    apply (FromString_empty_text pf up Count_uint32 eq_refl).
    + cbn. intuition discriminate.
    + cbn. auto 20.
Defined.
